(** * biojs-io-biom: the validated BIOM table model

    A shallow embedding of [src/biojs-io-biom.js].  The source file holds two
    historical versions of the [Biom] class; they live here in the modules
    [V1] (accessors with validating setters, lines 1-472) and [V2] (the
    earlier class whose constructor writes the backing properties directly,
    lines 474-694). *)

From Stdlib Require Import ZArith QArith String Ascii List Bool Lia.
From stdpp Require Import base option gmap strings list fin_maps.

Local Open Scope string_scope.
Local Open Scope Z_scope.

(** ** JavaScript values *)

(** A JavaScript number.  The program never does arithmetic on numbers: it
    only asks whether one is an integer and whether it is below zero, so a
    finite double is represented by the rational it denotes (the two zeros
    are not told apart: both are integers and neither is below zero). *)
Inductive Number :=
| Finite (q : Q)
| NaN
| Infinity (negative : bool).

Set Warnings "-register-all".

(** The values the program can be handed: primitives, arrays (a hole reads
    as [JUndefined]) and plain objects (a finite map from property names). *)
Inductive JsValue :=
| JUndefined
| JNull
| JBool (b : bool)
| JNum (n : Number)
| JStr (s : string)
| JArr (elems : list JsValue)
| JObj (props : gmap string JsValue).

Set Warnings "+register-all".

Global Instance JsValue_inhabited : Inhabited JsValue := populate JUndefined.

(** What a [throw] carries: the constructor of the error object and its
    message. *)
Inductive exn :=
| TypeError (message : string)
| Error (message : string).

(** [typeof v] *)
Definition typeof (v : JsValue) : string :=
  match v with
  | JUndefined => "undefined"
  | JNull => "object"
  | JBool _ => "boolean"
  | JNum _ => "number"
  | JStr _ => "string"
  | JArr _ => "object"
  | JObj _ => "object"
  end.

(** [Object.prototype.toString.call(v)], for values that carry no
    [Symbol.toStringTag] of their own *)
Definition Object_prototype_toString_call (v : JsValue) : string :=
  match v with
  | JUndefined => "[object Undefined]"
  | JNull => "[object Null]"
  | JBool _ => "[object Boolean]"
  | JNum _ => "[object Number]"
  | JStr _ => "[object String]"
  | JArr _ => "[object Array]"
  | JObj _ => "[object Object]"
  end.

(** [v !== null] *)
Definition not_null (v : JsValue) : bool :=
  match v with JNull => false | _ => true end.

(** [s !== t] on strings *)
Definition str_ne (s t : string) : bool := negb (String.eqb s t).

(** [Number.isInteger(v)]: false for every non-number, for NaN and for the
    infinities. *)
Definition Number_isInteger (v : JsValue) : bool :=
  match v with
  | JNum (Finite q) => (Qnum q mod Zpos (Qden q) =? 0)%Z
  | _ => false
  end.

(** [v < 0], for the numbers the program compares.  The comparison is only
    reached behind [Number.isInteger(v)], which has excluded every
    non-number, so no coercion of other values is modelled. *)
Definition lt_zero (v : JsValue) : bool :=
  match v with
  | JNum (Finite q) => (Qnum q <? 0)%Z
  | JNum (Infinity negative) => negative
  | _ => false
  end.

(** [a.length] and [a[i]] of an array *)
Definition length_of (v : JsValue) : Z :=
  match v with
  | JArr elems => Z.of_nat (length elems)
  | _ => 0
  end.

Definition index (v : JsValue) (i : nat) : JsValue :=
  match v with
  | JArr elems => default JUndefined (elems !! i)
  | _ => JUndefined
  end.

(** [c === v] for a string [c]: a value of another type is never strictly
    equal to a string. *)
Definition str_strict_eq (c : string) (v : JsValue) : bool :=
  match v with
  | JStr s => String.eqb c s
  | _ => false
  end.

(** [cv.indexOf(v)] on an array of strings: the first position holding a
    value strictly equal to [v], or -1. *)
Fixpoint indexOf_from (cv : list string) (v : JsValue) (i : Z) : Z :=
  match cv with
  | [] => -1
  | c :: cv' => if str_strict_eq c v then i else indexOf_from cv' v (i + 1)
  end.

Definition indexOf (cv : list string) (v : JsValue) : Z := indexOf_from cv v 0.

(** The double-quote character, for messages that quote vocabulary words. *)
Definition dq : string := String (ascii_of_nat 34) EmptyString.

(** ** Objects and the effects of a method body *)

(** An object is its finite map of properties. *)
Abbreviation Obj := (gmap string JsValue).

(** [o.k]: a property that is not there reads as [undefined]. *)
Definition prop (o : Obj) (k : string) : JsValue := default JUndefined (o !! k).

(** A method body runs against [this]: it ends normally with a value or
    abruptly with a thrown exception, and in both cases leaves [this] in
    whatever state the assignments executed so far have put it. *)
Definition M (A : Type) : Type := Obj -> (exn + A) * Obj.

Definition ret {A} (a : A) : M A := fun this => (inr a, this).

Definition bind {A B} (m : M A) (k : A -> M B) : M B :=
  fun this =>
    match m this with
    | (inl e, this') => (inl e, this')
    | (inr a, this') => k a this'
    end.

(** [throw e] *)
Definition throw {A} (e : exn) : M A := fun this => (inl e, this).

(** [this.k = v] on a data property *)
Definition assign (k : string) (v : JsValue) : M unit :=
  fun this => (inr tt, <[k := v]> this).

(** [if (c) { body }] *)
Definition when (c : bool) (body : M unit) : M unit :=
  if c then body else ret tt.

(** Sequencing is written [m1 ;; m2]. *)
Global Instance M_ret : MRet M := @ret.
Global Instance M_bind : MBind M := fun A B k m => bind m k.

(** [new C(...)]: the constructor body runs against a fresh object; the
    expression yields that object unless the body throws. *)
Definition new (body : M unit) : exn + Obj :=
  match body ∅ with
  | (inl e, _) => inl e
  | (inr _, this) => inr this
  end.

(** A destructuring parameter [{...} = {}]: [undefined] selects the default
    [{}], [null] cannot be destructured, and a primitive or an array has none
    of the option names as a property.  The [TypeError] for [null] is the
    host's; its message differs from host to host and the text here stands
    for it. *)
Definition destructure (arg : JsValue) : exn + Obj :=
  match arg with
  | JUndefined => inr ∅
  | JNull => inl (TypeError "Cannot destructure null")
  | JObj props => inr props
  | _ => inr ∅
  end.

(** [{k: x = d}]: the default [d] is taken when the property is missing or
    [undefined]. *)
Definition prop_or (o : Obj) (k : string) (d : JsValue) : JsValue :=
  match o !! k with
  | None | Some JUndefined => d
  | Some v => v
  end.

(** ** The clock

    [new Date()] and [Date.now()] read the host's clock.  The reading is a
    parameter [now] of the constructors: the time value, in milliseconds
    since the epoch.  [Date.prototype.toISOString] is a built-in of the host,
    not code of this program; it is written out here after the ECMAScript
    definition of the date-time string format so that the stamped value can
    be computed and inspected. *)
Module Date.

Definition msPerDay : Z := 86400000.

(** [Day(t)] and the time-within-day fields; [/] and [mod] round towards
    minus infinity, as the language specification asks. *)
Definition Day (t : Z) : Z := t / msPerDay.
Definition HourFromTime (t : Z) : Z := (t / 3600000) mod 24.
Definition MinFromTime (t : Z) : Z := (t / 60000) mod 60.
Definition SecFromTime (t : Z) : Z := (t / 1000) mod 60.
Definition msFromTime (t : Z) : Z := t mod 1000.

(** The day number within its 400-year cycle (cycles start on 1 March of a
    year divisible by 400), the year of the cycle, and the day of that
    March-based year. *)
Definition day_of_era (day : Z) : Z := (day + 719468) mod 146097.
Definition year_of_era (doe : Z) : Z :=
  (doe - doe / 1460 + doe / 36524 - doe / 146096) / 365.
Definition day_of_year (doe : Z) : Z :=
  let yoe := year_of_era doe in
  doe - (365 * yoe + yoe / 4 - yoe / 100).
Definition month_index (doy : Z) : Z := (5 * doy + 2) / 153.

(** [MonthFromTime(t) + 1], [DateFromTime(t)] and [YearFromTime(t)] *)
Definition month_of (doe : Z) : Z :=
  let mp := month_index (day_of_year doe) in
  if mp <? 10 then mp + 3 else mp - 9.
Definition date_of (doe : Z) : Z :=
  let doy := day_of_year doe in
  doy - (153 * month_index doy + 2) / 5 + 1.
Definition YearFromTime (t : Z) : Z :=
  let z := Day t + 719468 in
  let doe := day_of_era (Day t) in
  year_of_era doe + (z / 146097) * 400
    + (if month_of doe <=? 2 then 1 else 0).
Definition MonthFromTime (t : Z) : Z := month_of (day_of_era (Day t)).
Definition DateFromTime (t : Z) : Z := date_of (day_of_era (Day t)).

(** [n] in decimal, zero-padded to [width] digits. *)
Definition digit (n : Z) : ascii := ascii_of_nat (48 + Z.to_nat (n mod 10)).
Fixpoint pad (width : nat) (n : Z) : string :=
  match width with
  | O => EmptyString
  | S w => String (digit (n / 10 ^ Z.of_nat w)) (pad w n)
  end.

(** Years 0 to 9999 print as four digits, the others as a sign and six
    digits. *)
Definition year_string (y : Z) : string :=
  if (0 <=? y) && (y <=? 9999) then pad 4 y
  else if y <? 0 then "-" ++ pad 6 (- y)
  else "+" ++ pad 6 y.

(** [new Date(t).toISOString()]: YYYY-MM-DDTHH:mm:ss.sssZ *)
Definition toISOString (t : Z) : string :=
  year_string (YearFromTime t) ++ "-" ++ pad 2 (MonthFromTime t) ++ "-"
    ++ pad 2 (DateFromTime t) ++ "T" ++ pad 2 (HourFromTime t) ++ ":"
    ++ pad 2 (MinFromTime t) ++ ":" ++ pad 2 (SecFromTime t) ++ "."
    ++ pad 3 (msFromTime t) ++ "Z".

(** *** Reading a date-time string back

    The ISO 8601 format that the language defines for date-time strings,
    as a recogniser: the calendar fields of a well-formed string, and the
    time value they denote ([Date.parse] on this format). *)
Definition is_digit (c : ascii) : bool :=
  (48 <=? nat_of_ascii c)%nat && (nat_of_ascii c <=? 57)%nat.

Definition digit_value (c : ascii) : Z := Z.of_nat (nat_of_ascii c) - 48.

(** Exactly [n] digits, read from the front. *)
Fixpoint digits (n : nat) (acc : Z) (s : string) : option (Z * string) :=
  match n with
  | O => Some (acc, s)
  | S n' =>
      match s with
      | String c s' =>
          if is_digit c then digits n' (10 * acc + digit_value c) s' else None
      | EmptyString => None
      end
  end.

Definition expect (c : ascii) (s : string) : option string :=
  match s with
  | String c' s' => if Ascii.eqb c c' then Some s' else None
  | EmptyString => None
  end.

Definition year_digits (s : string) : option (Z * string) :=
  match s with
  | String "+" s' => digits 6 0 s'
  | String "-" s' =>
      match digits 6 0 s' with
      | Some (y, rest) => if y =? 0 then None else Some (- y, rest)
      | None => None
      end
  | _ => digits 4 0 s
  end.

Record fields := mkFields {
  year : Z; month : Z; day : Z;
  hours : Z; minutes : Z; seconds : Z; milliseconds : Z }.

Definition parse_fields (s : string) : option fields :=
  '(y, s) ← year_digits s;
  s ← expect "-" s;
  '(mo, s) ← digits 2 0 s;
  s ← expect "-" s;
  '(d, s) ← digits 2 0 s;
  s ← expect "T" s;
  '(h, s) ← digits 2 0 s;
  s ← expect ":" s;
  '(mi, s) ← digits 2 0 s;
  s ← expect ":" s;
  '(se, s) ← digits 2 0 s;
  s ← expect "." s;
  '(ms, s) ← digits 3 0 s;
  s ← expect "Z" s;
  match s with
  | EmptyString => Some (mkFields y mo d h mi se ms)
  | _ => None
  end.

(** The fields are those of a date and a time of day. *)
Definition in_range (f : fields) : bool :=
  (1 <=? month f) && (month f <=? 12) && (1 <=? day f) && (day f <=? 31)
  && (hours f <=? 23) && (minutes f <=? 59) && (seconds f <=? 59).

(** The day number of a calendar date, and the time value of the fields. *)
Definition days_from_civil (y m d : Z) : Z :=
  let y' := if m <=? 2 then y - 1 else y in
  let era := y' / 400 in
  let yoe := y' - era * 400 in
  let mp := if 2 <? m then m - 3 else m + 9 in
  let doy := (153 * mp + 2) / 5 + d - 1 in
  let doe := yoe * 365 + yoe / 4 - yoe / 100 + doy in
  era * 146097 + doe - 719468.

Definition UTC (f : fields) : Z :=
  days_from_civil (year f) (month f) (day f) * msPerDay
  + hours f * 3600000 + minutes f * 60000 + seconds f * 1000
  + milliseconds f.

(** [Date.parse(s)] on the date-time string format *)
Definition parse (s : string) : option Z :=
  match parse_fields s with
  | Some f => if in_range f then Some (UTC f) else None
  | None => None
  end.

(** The time values a [Date] can hold. *)
Definition time_value (t : Z) : Prop :=
  -8640000000000000 <= t <= 8640000000000000.

End Date.

(** ** Module constants *)

Definition VERSION : string := "0.1.0".

(** Controlled vocabularies of the [type], [matrix_type] and
    [matrix_element_type] fields. *)
Definition TYPE_CV : list string :=
  [ "OTU table"; "Pathway table"; "Function table"; "Ortholog table";
    "Gene table"; "Metabolite table"; "Taxon table" ].

Definition MATRIX_TYPE_CV : list string := [ "sparse"; "dense" ].

Definition MATRIX_ELEMENT_TYPE_CV : list string := [ "int"; "float"; "unicode" ].

(** ** Version 1: every field has a validating setter *)
Module V1.

(** Default Biom object for empty initialization.  This is the object as
    the module loads it.  Its [rows], [columns], [shape] and [data] are
    array objects that the constructor hands on uncopied, so a caller can
    write into them through a table; [V1Shared] below models that sharing,
    and the constructor of this module is the constructor in the module
    state as loaded ([V1SharedFacts.constructor_loaded]). *)
Definition DEFAULT_BIOM : Obj :=
  {[ "id" := JNull;
     "format" := JStr "Biological Observation Matrix 1.0.0";
     "format_url" := JStr "http://biom-format.org";
     "type" := JStr "OTU table";
     "generated_by" := JStr ("biojs-io-biom v" ++ VERSION);
     "date" := JNull;
     "rows" := JArr [];
     "columns" := JArr [];
     "matrix_type" := JStr "sparse";
     "matrix_element_type" := JStr "float";
     "shape" := JArr [JNum (Finite 0); JNum (Finite 0)];
     "data" := JArr [];
     "comment" := JNull ]}.

(** *** Getters *)
Definition get_id (this : Obj) : JsValue := prop this "_id".
Definition get_format (this : Obj) : JsValue := prop this "_format".
Definition get_format_url (this : Obj) : JsValue := prop this "_format_url".
Definition get_type (this : Obj) : JsValue := prop this "_type".
Definition get_generated_by (this : Obj) : JsValue := prop this "_generated_by".
Definition get_date (this : Obj) : JsValue := prop this "_date".
Definition get_rows (this : Obj) : JsValue := prop this "_rows".
Definition get_columns (this : Obj) : JsValue := prop this "_columns".
Definition get_matrix_type (this : Obj) : JsValue := prop this "_matrix_type".
Definition get_matrix_element_type (this : Obj) : JsValue :=
  prop this "_matrix_element_type".
Definition get_shape (this : Obj) : JsValue := prop this "_shape".
Definition get_data (this : Obj) : JsValue := prop this "_data".
Definition get_comment (this : Obj) : JsValue := prop this "_comment".

(** *** Setters *)
Definition set_id (id : JsValue) : M unit :=
  when (not_null id && str_ne (typeof id) "string")
    (throw (TypeError "id must be string or null")) ;;
  assign "_id" id.

Definition set_format (format : JsValue) : M unit :=
  when (str_ne (typeof format) "string")
    (throw (TypeError "format must be string")) ;;
  assign "_format" format.

Definition set_format_url (format_url : JsValue) : M unit :=
  when (str_ne (typeof format_url) "string")
    (throw (TypeError ("format_url must be string" ++
                       " (representing a static URL)"))) ;;
  assign "_format_url" format_url.

Definition set_type (type : JsValue) : M unit :=
  when (str_ne (typeof type) "string")
    (throw (TypeError ("type must be string" ++
                       " (part of the controlled vocabulary)"))) ;;
  when (indexOf TYPE_CV type =? -1)
    (throw (Error "type must be part of the controlled vocabulary")) ;;
  assign "_type" type.

Definition set_generated_by (generated_by : JsValue) : M unit :=
  when (str_ne (typeof generated_by) "string")
    (throw (TypeError "generated_by must be string")) ;;
  assign "_generated_by" generated_by.

Definition set_date (date : JsValue) : M unit :=
  when (str_ne (typeof date) "string")
    (throw (TypeError "date must be string (ISO 8601 format)")) ;;
  assign "_date" date.

Definition set_rows (rows : JsValue) : M unit :=
  when (str_ne (Object_prototype_toString_call rows) "[object Array]")
    (throw (TypeError "rows must be an Array")) ;;
  assign "_rows" rows.

Definition set_columns (columns : JsValue) : M unit :=
  when (str_ne (Object_prototype_toString_call columns) "[object Array]")
    (throw (TypeError "columns must be an Array")) ;;
  assign "_columns" columns.

Definition set_matrix_type (matrix_type : JsValue) : M unit :=
  when (str_ne (typeof matrix_type) "string")
    (throw (TypeError ("matrix_type must be string" ++
               " (part of the controlled vocabulary: " ++ dq ++ "dense" ++ dq
               ++ " or " ++ dq ++ "sparse" ++ dq ++ ")"))) ;;
  when (indexOf MATRIX_TYPE_CV matrix_type =? -1)
    (throw (Error ("matrix_type must be part of the" ++
               " controlled vocabulary: " ++ dq ++ "dense" ++ dq
               ++ " or " ++ dq ++ "sparse" ++ dq))) ;;
  assign "_matrix_type" matrix_type.

Definition set_matrix_element_type (matrix_element_type : JsValue) : M unit :=
  when (str_ne (typeof matrix_element_type) "string")
    (throw (TypeError ("matrix_element_type must be string" ++
               " (part of the controlled vocabulary:" ++
               " " ++ dq ++ "int" ++ dq ++ ", " ++ dq ++ "float" ++ dq
               ++ " or " ++ dq ++ "unicode" ++ dq ++ ")"))) ;;
  when (indexOf MATRIX_ELEMENT_TYPE_CV matrix_element_type =? -1)
    (throw (Error ("matrix_element_type must be part of the" ++
               " controlled vocabulary: " ++ dq ++ "int" ++ dq ++ ", "
               ++ dq ++ "float" ++ dq ++ " or " ++ dq ++ "unicode" ++ dq))) ;;
  assign "_matrix_element_type" matrix_element_type.

Definition set_shape (shape : JsValue) : M unit :=
  when (str_ne (Object_prototype_toString_call shape) "[object Array]")
    (throw (TypeError ("shape must be an Array containing" ++
                       " exactly two non-negative integers"))) ;;
  when (negb (length_of shape =? 2))
    (throw (Error "shape does not contain exactly two elements")) ;;
  when (negb (Number_isInteger (index shape 0)) ||
        lt_zero (index shape 0) ||
        negb (Number_isInteger (index shape 1)) ||
        lt_zero (index shape 1))
    (throw (Error "shape does not contain non-negative integers")) ;;
  assign "_shape" shape.

Definition set_data (data : JsValue) : M unit :=
  when (str_ne (Object_prototype_toString_call data) "[object Array]")
    (throw (TypeError "data must be an Array")) ;;
  assign "_data" data.

Definition set_comment (comment : JsValue) : M unit :=
  when (not_null comment && str_ne (typeof comment) "string")
    (throw (TypeError "comment must be string or null")) ;;
  assign "_comment" comment.

(** *** Constructor

    The parameter is destructured with its defaults, then every field is
    assigned through its setter, in this order. *)
Definition constructor (now : Z) (arg : JsValue) : exn + Obj :=
  match destructure arg with
  | inl e => inl e
  | inr o =>
      let _id := prop_or o "id" JNull in
      let _format := prop_or o "format" (prop DEFAULT_BIOM "format") in
      let _format_url :=
        prop_or o "format_url" (prop DEFAULT_BIOM "format_url") in
      let _type := prop_or o "type" (prop DEFAULT_BIOM "type") in
      let _generated_by :=
        prop_or o "generated_by" (prop DEFAULT_BIOM "generated_by") in
      let _date := prop_or o "date" JNull in
      let _rows := prop_or o "rows" (prop DEFAULT_BIOM "rows") in
      let _columns := prop_or o "columns" (prop DEFAULT_BIOM "columns") in
      let _matrix_type :=
        prop_or o "matrix_type" (prop DEFAULT_BIOM "matrix_type") in
      let _matrix_element_type :=
        prop_or o "matrix_element_type"
                (prop DEFAULT_BIOM "matrix_element_type") in
      let _shape := prop_or o "shape" (prop DEFAULT_BIOM "shape") in
      let _data := prop_or o "data" (prop DEFAULT_BIOM "data") in
      let _comment := prop_or o "comment" (prop DEFAULT_BIOM "comment") in
      new (set_id _id ;;
           set_format _format ;;
           set_format_url _format_url ;;
           set_type _type ;;
           set_generated_by _generated_by ;;
           let _date :=
             if not_null _date then _date
             else JStr (Date.toISOString now) in
           set_date _date ;;
           set_rows _rows ;;
           set_columns _columns ;;
           set_matrix_type _matrix_type ;;
           set_matrix_element_type _matrix_element_type ;;
           set_shape _shape ;;
           set_data _data ;;
           set_comment _comment)
  end.

(** *** The thirteen fields, uniformly *)

Inductive Field :=
| f_id | f_format | f_format_url | f_type | f_generated_by | f_date
| f_rows | f_columns | f_matrix_type | f_matrix_element_type | f_shape
| f_data | f_comment.

Global Instance Field_eq_dec : EqDecision Field.
Proof. solve_decision. Defined.

(** The fields in the order in which the constructor assigns them. *)
Definition fields : list Field :=
  [ f_id; f_format; f_format_url; f_type; f_generated_by; f_date; f_rows;
    f_columns; f_matrix_type; f_matrix_element_type; f_shape; f_data;
    f_comment ].

(** The name of a field in the constructor's configuration object (it is
    also the accessor's name), and the property that backs it. *)
Definition option_name (f : Field) : string :=
  match f with
  | f_id => "id"
  | f_format => "format"
  | f_format_url => "format_url"
  | f_type => "type"
  | f_generated_by => "generated_by"
  | f_date => "date"
  | f_rows => "rows"
  | f_columns => "columns"
  | f_matrix_type => "matrix_type"
  | f_matrix_element_type => "matrix_element_type"
  | f_shape => "shape"
  | f_data => "data"
  | f_comment => "comment"
  end.

Definition slot (f : Field) : string := "_" ++ option_name f.

(** [this.f] and [this.f = v] *)
Definition get (f : Field) : Obj -> JsValue :=
  match f with
  | f_id => get_id
  | f_format => get_format
  | f_format_url => get_format_url
  | f_type => get_type
  | f_generated_by => get_generated_by
  | f_date => get_date
  | f_rows => get_rows
  | f_columns => get_columns
  | f_matrix_type => get_matrix_type
  | f_matrix_element_type => get_matrix_element_type
  | f_shape => get_shape
  | f_data => get_data
  | f_comment => get_comment
  end.

Definition set (f : Field) : JsValue -> M unit :=
  match f with
  | f_id => set_id
  | f_format => set_format
  | f_format_url => set_format_url
  | f_type => set_type
  | f_generated_by => set_generated_by
  | f_date => set_date
  | f_rows => set_rows
  | f_columns => set_columns
  | f_matrix_type => set_matrix_type
  | f_matrix_element_type => set_matrix_element_type
  | f_shape => set_shape
  | f_data => set_data
  | f_comment => set_comment
  end.

(** The validator of a field is the guard of its setter: [check f v] is
    the exception that [this.f = v] throws, if it throws. *)
Definition check (f : Field) (v : JsValue) : option exn :=
  match fst (set f v ∅) with
  | inl e => Some e
  | inr _ => None
  end.

(** The value the constructor passes to the setter of [f]. *)
Definition argument (now : Z) (o : Obj) (f : Field) : JsValue :=
  match f with
  | f_id => prop_or o "id" JNull
  | f_date =>
      let _date := prop_or o "date" JNull in
      if not_null _date then _date else JStr (Date.toISOString now)
  | _ => prop_or o (option_name f) (prop DEFAULT_BIOM (option_name f))
  end.

(** Assigning a list of fields in sequence. *)
Fixpoint assign_all (fs : list Field) (val : Field -> JsValue) : M unit :=
  match fs with
  | [] => ret tt
  | [f] => set f (val f)
  | f :: fs' => set f (val f) ;; assign_all fs' val
  end.

(** A successful construction, then any number of assignments, each of
    which either succeeds or throws. *)
Inductive reachable : Obj -> Prop :=
| reachable_new now arg this :
    constructor now arg = inr this -> reachable this
| reachable_set f v this :
    reachable this -> reachable (snd (set f v this)).

End V1.

(** ** Version 2: read accessors, and a setter for [id] only *)
Module V2.

(** The default object as the module loads it; its arrays are shared with
    the instances in the same way as in version 1. *)
Definition DEFAULT_BIOM : Obj :=
  {[ "id" := JNull;
     "format" := JStr "Biological Observation Matrix 1.0.0";
     "format_url" := JStr "http://biom-format.org";
     "type" := JStr "OTU table";
     "generated_by" := JStr ("biojs-io-biom v" ++ VERSION);
     "date" := JNull;
     "rows" := JArr [];
     "columns" := JArr [];
     "matrix_type" := JStr "sparse";
     "matrix_element_type" := JStr "float";
     "shape" := JArr [JNum (Finite 0); JNum (Finite 0)];
     "data" := JArr [] ]}.

(** [Date.now()] *)
Definition Date_now (now : Z) : JsValue := JNum (Finite (inject_Z now)).

(** The constructor stores the destructured values in the backing
    properties directly. *)
Definition constructor (now : Z) (arg : JsValue) : exn + Obj :=
  match destructure arg with
  | inl e => inl e
  | inr o =>
      let _id := prop_or o "id" JNull in
      let _format := prop_or o "format" (prop DEFAULT_BIOM "format") in
      let _format_url :=
        prop_or o "format_url" (prop DEFAULT_BIOM "format_url") in
      let _type := prop_or o "type" (prop DEFAULT_BIOM "type") in
      let _generated_by :=
        prop_or o "generated_by" (prop DEFAULT_BIOM "generated_by") in
      let _date := prop_or o "date" (Date_now now) in
      let _rows := prop_or o "rows" (prop DEFAULT_BIOM "rows") in
      let _columns := prop_or o "columns" (prop DEFAULT_BIOM "columns") in
      let _matrix_type :=
        prop_or o "matrix_type" (prop DEFAULT_BIOM "matrix_type") in
      let _matrix_element_type :=
        prop_or o "matrix_element_type"
                (prop DEFAULT_BIOM "matrix_element_type") in
      let _shape := prop_or o "shape" (prop DEFAULT_BIOM "shape") in
      let _data := prop_or o "data" (prop DEFAULT_BIOM "data") in
      new (assign "_id" _id ;;
           assign "_format" _format ;;
           assign "_format_url" _format_url ;;
           assign "_type" _type ;;
           assign "_generated_by" _generated_by ;;
           assign "_date" _date ;;
           assign "_rows" _rows ;;
           assign "_columns" _columns ;;
           assign "_matrix_type" _matrix_type ;;
           assign "_matrix_element_type" _matrix_element_type ;;
           assign "_shape" _shape ;;
           assign "_data" _data)
  end.

Definition get_id (this : Obj) : JsValue := prop this "_id".

Definition set_id (id : JsValue) : M unit :=
  when (not_null id && str_ne (typeof id) "string")
    (throw (TypeError "id must be string or null")) ;;
  assign "_id" id.

Definition get_format (this : Obj) : JsValue := prop this "_format".
Definition get_format_url (this : Obj) : JsValue := prop this "_format_url".
Definition get_type (this : Obj) : JsValue := prop this "_type".
Definition get_generated_by (this : Obj) : JsValue := prop this "_generated_by".
Definition get_date (this : Obj) : JsValue := prop this "_date".
Definition get_rows (this : Obj) : JsValue := prop this "_rows".
Definition get_columns (this : Obj) : JsValue := prop this "_columns".
Definition get_matrix_type (this : Obj) : JsValue := prop this "_matrix_type".
Definition get_matrix_element_type (this : Obj) : JsValue :=
  prop this "_matrix_element_type".
Definition get_shape (this : Obj) : JsValue := prop this "_shape".
Definition get_data (this : Obj) : JsValue := prop this "_data".

(** A successful construction, then any number of assignments to [id]. *)
Inductive reachable : Obj -> Prop :=
| reachable_new now arg this :
    constructor now arg = inr this -> reachable this
| reachable_set_id v this :
    reachable this -> reachable (snd (set_id v this)).

End V2.

(** ** Version 1 with the default arrays as shared objects

    The literal of [DEFAULT_BIOM] creates four array objects when the module
    is loaded.  The constructor takes [DEFAULT_BIOM.rows] and the like as
    defaults, the setters store what they are given and the getters return
    what is stored, in each case the array object itself.  Here a stored
    thing is either a value of the caller's or one of those four objects,
    and the module state says what the four currently hold. *)
Module V1Shared.
Import V1.

(** The array objects [DEFAULT_BIOM.rows], [.columns], [.shape], [.data]. *)
Inductive Cell := c_rows | c_columns | c_shape | c_data.

Global Instance Cell_eq_dec : EqDecision Cell.
Proof. solve_decision. Defined.

(** The module state: the elements each of them holds now. *)
Definition Defaults : Type := Cell -> list JsValue.

(** The module state as the module loads it. *)
Definition loaded : Defaults :=
  fun c =>
    match c with
    | c_shape => [JNum (Finite 0); JNum (Finite 0)]
    | _ => []
    end.

(** What a parameter or a backing property holds. *)
Inductive Stored :=
| Own (v : JsValue)
| Shared (c : Cell).

(** What it reads as in the module state [D]. *)
Definition read (D : Defaults) (s : Stored) : JsValue :=
  match s with
  | Own v => v
  | Shared c => JArr (D c)
  end.

(** An instance: its backing properties. *)
Abbreviation Inst := (gmap string Stored).

(** [{k: x = d}] *)
Definition param (o : Obj) (k : string) (d : Stored) : Stored :=
  match o !! k with
  | None | Some JUndefined => d
  | Some v => Own v
  end.

(** [DEFAULT_BIOM.k] for the option of field [f] *)
Definition default_of (f : Field) : Stored :=
  match f with
  | f_rows => Shared c_rows
  | f_columns => Shared c_columns
  | f_shape => Shared c_shape
  | f_data => Shared c_data
  | _ => Own (prop DEFAULT_BIOM (option_name f))
  end.

(** The value the constructor passes to the setter of [f]. *)
Definition argument (now : Z) (o : Obj) (f : Field) : Stored :=
  match f with
  | f_id => param o "id" (Own JNull)
  | f_date =>
      let _date := param o "date" (Own JNull) in
      match _date with
      | Own JNull => Own (JStr (Date.toISOString now))
      | _ => _date
      end
  | _ => param o (option_name f) (default_of f)
  end.

(** [this.f = s]: the guard of the setter looks at what [s] reads as, and
    the backing property receives [s] itself. *)
Definition set (D : Defaults) (f : Field) (s : Stored) (this : Inst)
  : (exn + unit) * Inst :=
  match check f (read D s) with
  | Some e => (inl e, this)
  | None => (inr tt, <[slot f := s]> this)
  end.

(** The assignments of the constructor, in their order. *)
Fixpoint assign_each (D : Defaults) (fs : list Field) (val : Field -> Stored)
  (this : Inst) : (exn + unit) * Inst :=
  match fs with
  | [] => (inr tt, this)
  | f :: fs' =>
      match set D f (val f) this with
      | (inl e, this') => (inl e, this')
      | (inr _, this') => assign_each D fs' val this'
      end
  end.

Definition constructor (D : Defaults) (now : Z) (arg : JsValue) : exn + Inst :=
  match destructure arg with
  | inl e => inl e
  | inr o =>
      match assign_each D fields (argument now o) ∅ with
      | (inl e, _) => inl e
      | (inr _, this) => inr this
      end
  end.

(** [this.f]: what the getter returns. *)
Definition get (f : Field) (this : Inst) : Stored :=
  default (Own JUndefined) (this !! slot f).

(** [a.push(x)] on what a getter returned: on one of the default arrays the
    element lands in the module state.  (An array of the caller's is not a
    part of the module state.) *)
Definition push (a : Stored) (x : JsValue) (D : Defaults) : Defaults :=
  match a with
  | Shared c => fun c' => if decide (c' = c) then (D c ++ [x])%list else D c'
  | Own _ => D
  end.

(** [a[i] = x] on what a getter returned; a write past the end leaves
    holes before it. *)
Definition store (a : Stored) (i : nat) (x : JsValue) (D : Defaults) : Defaults :=
  match a with
  | Shared c =>
      fun c' =>
        if decide (c' = c) then
          <[i := x]> (D c ++ replicate (S i - length (D c)) JUndefined)%list
        else D c'
  | Own _ => D
  end.

(** Forgetting which array is whose. *)
Definition erase (D : Defaults) (r : exn + Inst) : exn + Obj :=
  match r with
  | inl e => inl e
  | inr this => inr (read D <$> this)
  end.

End V1Shared.

(** * The specification's terms *)

(** ** Values and errors *)

(** Structural types of values. *)
Definition textual (v : JsValue) : Prop := exists s, v = JStr s.
Definition is_sequence (v : JsValue) : Prop := exists elems, v = JArr elems.

(** A number denoting one of 0, 1, 2, ... *)
Definition nonneg_integer (v : JsValue) : Prop :=
  exists (q : Q) (n : N), v = JNum (Finite q) /\ (q == inject_Z (Z.of_N n))%Q.

(** Membership of a value in a controlled vocabulary. *)
Definition in_vocabulary (cv : list string) (v : JsValue) : Prop :=
  exists s, v = JStr s /\ s ∈ cv.

(** The error kinds, read off the thrown exception: a [TypeError] is a type
    mismatch; the plain [Error]s are told apart by what they report. *)
Definition TypeMismatch (e : exn) : Prop := exists message, e = TypeError message.

Definition VocabularyViolation (e : exn) : Prop :=
  e = Error "type must be part of the controlled vocabulary" \/
  e = Error ("matrix_type must be part of the controlled vocabulary: "
             ++ dq ++ "dense" ++ dq ++ " or " ++ dq ++ "sparse" ++ dq) \/
  e = Error ("matrix_element_type must be part of the controlled vocabulary: "
             ++ dq ++ "int" ++ dq ++ ", " ++ dq ++ "float" ++ dq ++ " or "
             ++ dq ++ "unicode" ++ dq).

Definition ArityViolation (e : exn) : Prop :=
  e = Error "shape does not contain exactly two elements".

Definition DomainViolation (e : exn) : Prop :=
  e = Error "shape does not contain non-negative integers".

(** The two encodings of the matrix payload: coordinate triples, and rows
    of values. *)
Definition sparse_triples (v : JsValue) : Prop :=
  exists elems, v = JArr elems /\
    forall x, x ∈ elems -> exists row column value, x = JArr [row; column; value].

Definition dense_rows (v : JsValue) : Prop :=
  exists elems, v = JArr elems /\ forall x, x ∈ elems -> is_sequence x.

(** ** The rules of version 1, in the words of the specification *)
Module V1Spec.
Import V1.

(** The validation rules in the words of the specification. *)
Definition valid (f : Field) (v : JsValue) : Prop :=
  match f with
  | f_id | f_comment => v = JNull \/ textual v
  | f_format | f_format_url | f_generated_by | f_date => textual v
  | f_type => in_vocabulary TYPE_CV v
  | f_matrix_type => in_vocabulary MATRIX_TYPE_CV v
  | f_matrix_element_type => in_vocabulary MATRIX_ELEMENT_TYPE_CV v
  | f_rows | f_columns | f_data => is_sequence v
  | f_shape =>
      exists x y, v = JArr [x; y] /\ nonneg_integer x /\ nonneg_integer y
  end.

(** The enum fields, each with its controlled vocabulary. *)
Definition enum_field (f : Field) (cv : list string) : Prop :=
  (f = f_type /\ cv = TYPE_CV) \/
  (f = f_matrix_type /\ cv = MATRIX_TYPE_CV) \/
  (f = f_matrix_element_type /\ cv = MATRIX_ELEMENT_TYPE_CV).

(** Assigning a list of fields, told by the guards: stop at the first field
    whose guard throws, install the values of the fields before it. *)
Fixpoint run (fs : list Field) (val : Field -> JsValue) (this : Obj)
  : (exn + unit) * Obj :=
  match fs with
  | [] => (inr tt, this)
  | f :: fs' =>
      match check f (val f) with
      | Some e => (inl e, this)
      | None => run fs' val (<[slot f := val f]> this)
      end
  end.

(** A configuration supplies a value for a field when it has one under
    the field's name that is not [undefined] (which selects the default,
    like a missing entry) and, for [date], not the [null] that asks for the
    time stamp. *)
Definition supplied (o : Obj) (f : Field) (v : JsValue) : Prop :=
  o !! option_name f = Some v /\ v <> JUndefined /\ (f = f_date -> v <> JNull).

(** The documented defaults. *)
Definition documented_default (now : Z) (f : Field) : JsValue :=
  match f with
  | f_id => JNull
  | f_format => JStr "Biological Observation Matrix 1.0.0"
  | f_format_url => JStr "http://biom-format.org"
  | f_type => JStr "OTU table"
  | f_generated_by => JStr "biojs-io-biom v0.1.0"
  | f_date => JStr (Date.toISOString now)
  | f_rows => JArr []
  | f_columns => JArr []
  | f_matrix_type => JStr "sparse"
  | f_matrix_element_type => JStr "float"
  | f_shape => JArr [JNum (Finite 0); JNum (Finite 0)]
  | f_data => JArr []
  | f_comment => JNull
  end.

(** Every field holds a value that its own setter accepts. *)
Definition valid_state (this : Obj) : Prop :=
  forall f, check f (get f this) = None.

(** The configuration leaves the date to the constructor: no entry, or
    [undefined], or the [null] that stands for "not set". *)
Definition date_unset (o : Obj) : Prop :=
  o !! "date" = None \/ o !! "date" = Some JUndefined \/
  o !! "date" = Some JNull.

(** The table built without arguments at a fixed reading of the clock. *)
Definition empty_table : Obj :=
  match constructor 1478109296789 JUndefined with
  | inr this => this
  | inl _ => ∅
  end.

End V1Spec.

(** ** Terms for the further properties *)

(** [e.message] *)
Definition message (e : exn) : string :=
  match e with
  | TypeError m => m
  | Error m => m
  end.

(** Callers of version 1. *)
Module V1Use.
Import V1.

(** The object literal [{id: ..., format: ..., ..., comment: ...}] with
    every option given. *)
Definition config (val : Field -> JsValue) : Obj :=
  {[ "id" := val f_id;
     "format" := val f_format;
     "format_url" := val f_format_url;
     "type" := val f_type;
     "generated_by" := val f_generated_by;
     "date" := val f_date;
     "rows" := val f_rows;
     "columns" := val f_columns;
     "matrix_type" := val f_matrix_type;
     "matrix_element_type" := val f_matrix_element_type;
     "shape" := val f_shape;
     "data" := val f_data;
     "comment" := val f_comment ]}.

(** [{id: b.id, format: b.format, ..., comment: b.comment}]: the
    configuration that reads every field of the table [b]. *)
Definition config_of (b : Obj) : Obj := config (fun f => get f b).

(** The structural type the setter of a field asks for, before any finer
    rule. *)
Definition well_typed (f : Field) (v : JsValue) : Prop :=
  match f with
  | f_id | f_comment => v = JNull \/ textual v
  | f_format | f_format_url | f_type | f_generated_by | f_date
  | f_matrix_type | f_matrix_element_type => textual v
  | f_rows | f_columns | f_shape | f_data => is_sequence v
  end.

End V1Use.

(** Callers of version 2. *)
Module V2Use.
Import V2.

(** [b.f] on a version-2 instance.  The class has no [comment] accessor, so
    [b.comment] is a plain property read. *)
Definition get (f : V1.Field) : Obj -> JsValue :=
  match f with
  | V1.f_id => get_id
  | V1.f_format => get_format
  | V1.f_format_url => get_format_url
  | V1.f_type => get_type
  | V1.f_generated_by => get_generated_by
  | V1.f_date => get_date
  | V1.f_rows => get_rows
  | V1.f_columns => get_columns
  | V1.f_matrix_type => get_matrix_type
  | V1.f_matrix_element_type => get_matrix_element_type
  | V1.f_shape => get_shape
  | V1.f_data => get_data
  | V1.f_comment => fun b => prop b "comment"
  end.

(** What a field reads when the configuration does not give it. *)
Definition default_of (now : Z) (f : V1.Field) : JsValue :=
  match f with
  | V1.f_id => JNull
  | V1.f_format => JStr "Biological Observation Matrix 1.0.0"
  | V1.f_format_url => JStr "http://biom-format.org"
  | V1.f_type => JStr "OTU table"
  | V1.f_generated_by => JStr "biojs-io-biom v0.1.0"
  | V1.f_date => JNum (Finite (inject_Z now))
  | V1.f_rows => JArr []
  | V1.f_columns => JArr []
  | V1.f_matrix_type => JStr "sparse"
  | V1.f_matrix_element_type => JStr "float"
  | V1.f_shape => JArr [JNum (Finite 0); JNum (Finite 0)]
  | V1.f_data => JArr []
  | V1.f_comment => JUndefined
  end.

(** [{id: b.id, format: b.format, ..., data: b.data}]: the configuration
    that reads the twelve fields of the instance [b]. *)
Definition config_of (b : Obj) : Obj :=
  {[ "id" := get_id b;
     "format" := get_format b;
     "format_url" := get_format_url b;
     "type" := get_type b;
     "generated_by" := get_generated_by b;
     "date" := get_date b;
     "rows" := get_rows b;
     "columns" := get_columns b;
     "matrix_type" := get_matrix_type b;
     "matrix_element_type" := get_matrix_element_type b;
     "shape" := get_shape b;
     "data" := get_data b ]}.

(** The value the constructor stores for a field: the one given, or the
    default. *)
Definition stored (now : Z) (o : Obj) (f : V1.Field) : JsValue :=
  match f with
  | V1.f_id => prop_or o "id" JNull
  | V1.f_date => prop_or o "date" (Date_now now)
  | V1.f_comment => JUndefined
  | _ => prop_or o (V1.option_name f) (prop DEFAULT_BIOM (V1.option_name f))
  end.

(** The properties of a reachable instance: the twelve backing ones, none of
    them [undefined]. *)
Definition twelve (this : Obj) : Prop :=
  (forall f, f <> V1.f_comment ->
     exists v, this !! V1.slot f = Some v /\ v <> JUndefined) /\
  (forall k, (forall f, f <> V1.f_comment -> V1.slot f <> k) -> this !! k = None).

End V2Use.

(** * Proofs *)

(** ** Facts about the primitives *)

Lemma indexOf_from_range cv v i :
  indexOf_from cv v i = -1 \/ i <= indexOf_from cv v i.
Proof.
  revert i. induction cv as [|c cv IH]; intros i; simpl.
  - by left.
  - destruct (str_strict_eq c v); [right; lia|].
    destruct (IH (i + 1)) as [->|?]; [by left | right; lia].
Qed.

Lemma indexOf_from_absent cv s i :
  0 <= i -> indexOf_from cv (JStr s) i = -1 <-> s ∉ cv.
Proof.
  revert i. induction cv as [|c cv IH]; intros i Hi; simpl.
  - split; [intros _; apply not_elem_of_nil | done].
  - rewrite not_elem_of_cons. destruct (String.eqb_spec c s) as [->|Hne].
    + split; [lia | intros [? _]; done].
    + rewrite (IH (i + 1)) by lia.
      split; [intros ?; split; [congruence | done] | by intros [_ ?]].
Qed.

Lemma indexOf_absent cv s : indexOf cv (JStr s) = -1 <-> s ∉ cv.
Proof. apply indexOf_from_absent. lia. Qed.

Lemma indexOf_test cv s :
  (indexOf cv (JStr s) =? -1) = bool_decide (s ∉ cv).
Proof.
  destruct (Z.eqb_spec (indexOf cv (JStr s)) (-1)) as [H|H];
    rewrite indexOf_absent in H; symmetry.
  - by apply bool_decide_eq_true.
  - by apply bool_decide_eq_false.
Qed.

(** [Number.isInteger(v) && !(v < 0)] holds exactly of the non-negative
    integers. *)
Lemma nonneg_integer_test v :
  Number_isInteger v && negb (lt_zero v) = true <-> nonneg_integer v.
Proof.
  rewrite andb_true_iff, negb_true_iff. split.
  - destruct v as [| | |[q| |]| | |]; simpl; try (intros [? _]; discriminate).
    intros [Hint Hlt]. apply Z.eqb_eq in Hint. apply Z.ltb_ge in Hlt.
    exists q, (Z.to_N (Qnum q / Zpos (Qden q))). split; [done|].
    unfold Qeq; simpl.
    pose proof (Z.div_mod (Qnum q) (Zpos (Qden q)) ltac:(lia)) as Hdm.
    rewrite Hint in Hdm.
    assert (0 <= Qnum q / Zpos (Qden q)) by (apply Z.div_pos; lia).
    rewrite Z2N.id by done. lia.
  - intros (q & n & -> & Heq). unfold Qeq in Heq; simpl in *.
    rewrite Z.mul_1_r in Heq. rewrite Heq. split.
    + apply Z.eqb_eq. apply Z.mod_mul. lia.
    + apply Z.ltb_ge. lia.
Qed.

(** ** The time stamp *)
Module DateFacts.
Import Date.

Lemma digit_spec k :
  is_digit (digit k) = true /\ digit_value (digit k) = k mod 10.
Proof.
  unfold digit.
  assert (k mod 10 = 0 \/ k mod 10 = 1 \/ k mod 10 = 2 \/ k mod 10 = 3 \/
          k mod 10 = 4 \/ k mod 10 = 5 \/ k mod 10 = 6 \/ k mod 10 = 7 \/
          k mod 10 = 8 \/ k mod 10 = 9) as H
    by (pose proof (Z.mod_pos_bound k 10); lia).
  decompose [or] H; clear H;
    match goal with H : _ mod 10 = _ |- _ => rewrite H end; by split.
Qed.

Lemma append_String c s rest : String c s ++ rest = String c (s ++ rest).
Proof. reflexivity. Qed.

Lemma digits_pad w n acc rest :
  digits w acc (pad w n ++ rest)
  = Some (acc * 10 ^ Z.of_nat w + n mod 10 ^ Z.of_nat w, rest).
Proof.
  revert acc. induction w as [|w IH]; intros acc.
  - simpl. rewrite Z.mod_1_r. do 2 f_equal. lia.
  - cbn [pad]. rewrite append_String. cbn [digits].
    destruct (digit_spec (n / 10 ^ Z.of_nat w)) as [-> ->].
    rewrite IH. do 2 f_equal.
    rewrite Nat2Z.inj_succ, Z.pow_succ_r by lia.
    assert (0 < 10 ^ Z.of_nat w) by (apply Z.pow_pos_nonneg; lia).
    replace (10 * 10 ^ Z.of_nat w) with (10 ^ Z.of_nat w * 10) by ring.
    rewrite Z.rem_mul_r by lia. ring.
Qed.

Lemma expect_same c rest : expect c (String c rest) = Some rest.
Proof. simpl. by rewrite Ascii.eqb_refl. Qed.

(** The calendar fields of a time value are in range. *)
Lemma day_of_era_range d : 0 <= day_of_era d < 146097.
Proof. unfold day_of_era. apply Z.mod_pos_bound. lia. Qed.

Lemma year_of_era_range doe :
  0 <= doe < 146097 -> 0 <= year_of_era doe <= 399.
Proof. unfold year_of_era. intros. Z.div_mod_to_equations. lia. Qed.

Lemma day_of_year_range doe :
  0 <= doe < 146097 -> 0 <= day_of_year doe <= 365.
Proof.
  unfold day_of_year, year_of_era. intros. Z.div_mod_to_equations. lia.
Qed.

Lemma month_index_range doy : 0 <= doy <= 365 -> 0 <= month_index doy <= 11.
Proof. unfold month_index. intros. Z.div_mod_to_equations. lia. Qed.

Lemma month_of_range doe : 0 <= doe < 146097 -> 1 <= month_of doe <= 12.
Proof.
  intros H%day_of_year_range%month_index_range. unfold month_of.
  destruct (Z.ltb_spec (month_index (day_of_year doe)) 10); lia.
Qed.

Lemma date_of_range doe : 0 <= doe < 146097 -> 1 <= date_of doe <= 31.
Proof.
  intros H%day_of_year_range. unfold date_of, month_index.
  Z.div_mod_to_equations. lia.
Qed.

Lemma YearFromTime_range t :
  time_value t -> -999999 <= YearFromTime t <= 999999 .
Proof.
  unfold time_value, YearFromTime. intros Ht.
  pose proof (year_of_era_range _ (day_of_era_range (Day t))).
  assert (-100000000 <= Day t <= 100000000)
    by (unfold Day, msPerDay; Z.div_mod_to_equations; lia).
  assert (-684 <= (Day t + 719468) / 146097 <= 690)
    by (Z.div_mod_to_equations; lia).
  destruct (_ <=? 2); lia.
Qed.

Lemma year_digits_string y rest :
  -999999 <= y <= 999999 ->
  year_digits (year_string y ++ rest) = Some (y, rest).
Proof.
  intros Hy. unfold year_string.
  destruct (Z.leb_spec 0 y), (Z.leb_spec y 9999); cbn [andb]; try lia.
  - transitivity (digits 4 0 (pad 4 y ++ rest)).
    + cbn [pad]. rewrite append_String.
      destruct (digit_spec (y / 10 ^ Z.of_nat 3)) as [Hd _].
      unfold year_digits. unfold is_digit, digit in *.
      destruct (ascii_of_nat _) as [[] [] [] [] [] [] [] []]; done.
    + rewrite digits_pad. do 2 f_equal. rewrite Z.mod_small; lia.
  - destruct (Z.ltb_spec y 0); [lia|].
    change (year_digits (("+" ++ pad 6 y) ++ rest))
      with (digits 6 0 (pad 6 y ++ rest)).
    rewrite digits_pad. do 2 f_equal. rewrite Z.mod_small; lia.
  - destruct (Z.ltb_spec y 0); [|lia].
    change (year_digits (("-" ++ pad 6 (- y)) ++ rest))
      with (match digits 6 0 (pad 6 (- y) ++ rest) with
            | Some (y, rest) => if y =? 0 then None else Some (- y, rest)
            | None => None
            end).
    rewrite digits_pad. rewrite Z.mod_small by lia.
    destruct (Z.eqb_spec (0 * 10 ^ Z.of_nat 6 + - y) 0); [lia|].
    do 2 f_equal. lia.
Qed.

Lemma append_char c rest : String c EmptyString ++ rest = String c rest.
Proof. reflexivity. Qed.

Lemma digits_pad_small w n rest :
  0 <= n < 10 ^ Z.of_nat w -> digits w 0 (pad w n ++ rest) = Some (n, rest).
Proof. intros Hn. rewrite digits_pad, Z.mod_small by done. done. Qed.

(** The string of a time value reads back as its calendar fields. *)
Lemma parse_fields_toISOString t :
  time_value t ->
  parse_fields (toISOString t)
  = Some (mkFields (YearFromTime t) (MonthFromTime t) (DateFromTime t)
            (HourFromTime t) (MinFromTime t) (SecFromTime t) (msFromTime t)).
Proof.
  intros Ht. unfold toISOString, parse_fields.
  pose proof (month_of_range _ (day_of_era_range (Day t))).
  pose proof (date_of_range _ (day_of_era_range (Day t))).
  rewrite year_digits_string by (by apply YearFromTime_range).
  cbn [mbind option_bind].
  rewrite !append_char, expect_same. cbn [mbind option_bind].
  rewrite digits_pad_small by (unfold MonthFromTime; simpl; lia).
  cbn [mbind option_bind]. rewrite expect_same. cbn [mbind option_bind].
  rewrite digits_pad_small by (unfold DateFromTime; simpl; lia).
  cbn [mbind option_bind]. rewrite expect_same. cbn [mbind option_bind].
  rewrite digits_pad_small
    by (unfold HourFromTime; simpl; Z.div_mod_to_equations; lia).
  cbn [mbind option_bind]. rewrite expect_same. cbn [mbind option_bind].
  rewrite digits_pad_small
    by (unfold MinFromTime; simpl; Z.div_mod_to_equations; lia).
  cbn [mbind option_bind]. rewrite expect_same. cbn [mbind option_bind].
  rewrite digits_pad_small
    by (unfold SecFromTime; simpl; Z.div_mod_to_equations; lia).
  cbn [mbind option_bind]. rewrite expect_same. cbn [mbind option_bind].
  rewrite digits_pad_small
    by (unfold msFromTime; simpl; Z.div_mod_to_equations; lia).
  cbn [mbind option_bind]. rewrite expect_same. reflexivity.
Qed.

(** The calendar date of a day number denotes that day. *)
Lemma days_from_civil_inverse t :
  days_from_civil (YearFromTime t) (MonthFromTime t) (DateFromTime t) = Day t.
Proof.
  unfold YearFromTime, MonthFromTime, DateFromTime.
  set (doe := day_of_era (Day t)).
  pose proof (day_of_era_range (Day t)) as Hdoe. fold doe in Hdoe.
  pose proof (year_of_era_range doe Hdoe) as Hyoe.
  pose proof (day_of_year_range doe Hdoe) as Hdoy.
  pose proof (month_index_range _ Hdoy) as Hmp.
  assert (Day t + 719468 = (Day t + 719468) / 146097 * 146097 + doe) as Hz
    by (unfold doe, day_of_era; Z.div_mod_to_equations; lia).
  set (era := (Day t + 719468) / 146097) in *.
  unfold days_from_civil, month_of, date_of.
  set (mp := month_index (day_of_year doe)) in *.
  assert ((if (if mp <? 10 then mp + 3 else mp - 9) <=? 2
           then year_of_era doe + era * 400
                + (if (if mp <? 10 then mp + 3 else mp - 9) <=? 2
                   then 1 else 0) - 1
           else year_of_era doe + era * 400
                + (if (if mp <? 10 then mp + 3 else mp - 9) <=? 2
                   then 1 else 0))
          = year_of_era doe + era * 400) as ->.
  { destruct (Z.ltb_spec mp 10);
      [destruct (Z.leb_spec (mp + 3) 2)|destruct (Z.leb_spec (mp - 9) 2)];
      lia. }
  assert ((if 2 <? (if mp <? 10 then mp + 3 else mp - 9)
           then (if mp <? 10 then mp + 3 else mp - 9) - 3
           else (if mp <? 10 then mp + 3 else mp - 9) + 9) = mp) as ->.
  { destruct (Z.ltb_spec mp 10);
      [destruct (Z.ltb_spec 2 (mp + 3))|destruct (Z.ltb_spec 2 (mp - 9))];
      lia. }
  assert ((year_of_era doe + era * 400) / 400 = era) as ->
    by (Z.div_mod_to_equations; lia).
  replace (year_of_era doe + era * 400 - era * 400) with (year_of_era doe)
    by lia.
  unfold day_of_year. cbv zeta. lia.
Qed.

(** [Date.parse(new Date(t).toISOString()) === t] *)
Theorem parse_toISOString t : time_value t -> parse (toISOString t) = Some t.
Proof.
  intros Ht. unfold parse. rewrite parse_fields_toISOString by done.
  pose proof (month_of_range _ (day_of_era_range (Day t))).
  pose proof (date_of_range _ (day_of_era_range (Day t))).
  assert (in_range
            (mkFields (YearFromTime t) (MonthFromTime t) (DateFromTime t)
               (HourFromTime t) (MinFromTime t) (SecFromTime t)
               (msFromTime t)) = true) as ->.
  { unfold in_range. cbn [month day hours minutes seconds].
    unfold MonthFromTime, DateFromTime, HourFromTime, MinFromTime,
      SecFromTime.
    repeat (apply andb_true_intro; split); apply Z.leb_le;
      try lia; Z.div_mod_to_equations; lia. }
  f_equal. unfold UTC. cbn [year month day hours minutes seconds milliseconds].
  rewrite days_from_civil_inverse.
  unfold Day, msPerDay, HourFromTime, MinFromTime, SecFromTime, msFromTime.
  Z.div_mod_to_equations. lia.
Qed.

Lemma toISOString_nonempty t : toISOString t <> EmptyString.
Proof.
  unfold toISOString, year_string.
  destruct (_ && _); [|destruct (_ <? 0)]; discriminate.
Qed.

End DateFacts.

(** ** Version 1: what a setter does *)
Module V1Facts.
Import V1 V1Spec.

Ltac unfold_setters :=
  unfold set_id, set_format, set_format_url, set_type, set_generated_by,
    set_date, set_rows, set_columns, set_matrix_type,
    set_matrix_element_type, set_shape, set_data, set_comment,
    mbind, M_bind, bind, when, throw, assign, ret.

Ltac case_guards :=
  repeat match goal with
    | |- context [if ?c then _ else _] => destruct c
    end.

(** A setter either throws what its guard says and leaves [this] alone, or
    installs the value in the backing property. *)
Lemma set_spec f v this :
  set f v this =
    match check f v with
    | Some e => (inl e, this)
    | None => (inr tt, <[slot f := v]> this)
    end.
Proof.
  unfold check.
  destruct f; cbn [set slot option_name String.append]; unfold_setters;
    case_guards; reflexivity.
Qed.

Lemma check_enum_string f cv s :
  enum_field f cv ->
  (s ∈ cv -> check f (JStr s) = None) /\
  (s ∉ cv -> exists e, check f (JStr s) = Some e /\ VocabularyViolation e).
Proof.
  intros [[-> ->]|[[-> ->]|[-> ->]]]; unfold check; cbn [set]; unfold_setters;
    cbn [typeof str_ne String.eqb Ascii.eqb Bool.eqb negb fst];
    rewrite indexOf_test; split; intros Hs.
  all: try (rewrite bool_decide_eq_false_2 by (by intros ?); reflexivity).
  all: rewrite bool_decide_eq_true_2 by done; eexists; split;
    [reflexivity | unfold VocabularyViolation; auto].
Qed.

Lemma check_shape_array elems :
  check f_shape (JArr elems) =
    if negb (Z.of_nat (length elems) =? 2) then
      Some (Error "shape does not contain exactly two elements")
    else if negb (Number_isInteger (index (JArr elems) 0)
                  && negb (lt_zero (index (JArr elems) 0))
                  && (Number_isInteger (index (JArr elems) 1)
                      && negb (lt_zero (index (JArr elems) 1)))) then
      Some (Error "shape does not contain non-negative integers")
    else None.
Proof.
  unfold check; cbn [set]; unfold_setters.
  cbn [Object_prototype_toString_call str_ne String.eqb Ascii.eqb Bool.eqb
         negb length_of].
  destruct (Z.of_nat (length elems) =? 2); [|reflexivity]. cbn [negb].
  destruct (Number_isInteger (index (JArr elems) 0)),
    (lt_zero (index (JArr elems) 0)),
    (Number_isInteger (index (JArr elems) 1)),
    (lt_zero (index (JArr elems) 1)); reflexivity.
Qed.

Lemma length_two {A} (l : list A) :
  Z.of_nat (length l) = 2 <-> exists x y, l = [x; y].
Proof.
  split.
  - destruct l as [|x [|y [|z l]]]; simpl; try lia. eauto.
  - by intros (x & y & ->).
Qed.

Lemma check_enum_other f cv v :
  enum_field f cv -> ~ textual v ->
  exists message, check f v = Some (TypeError message).
Proof.
  intros [[-> ->]|[[-> ->]|[-> ->]]] Hv;
    (destruct v; [..|]; try (eexists; reflexivity));
    exfalso; apply Hv; by eexists.
Qed.

Lemma check_enum_valid f cv v :
  enum_field f cv -> check f v = None <-> in_vocabulary cv v.
Proof.
  intros Hf. split.
  - intros Hc. destruct v as [| | | |s| |].
    all: try (edestruct (check_enum_other f cv) as [? Hm];
              [done | | rewrite Hc in Hm; discriminate];
              intros [? ?]; discriminate).
    exists s. split; [done|].
    destruct (decide (s ∈ cv)) as [|Hn]; [done|].
    destruct (check_enum_string f cv s Hf) as [_ Hv].
    destruct (Hv Hn) as (? & ? & _). congruence.
  - intros (s & -> & Hs). by apply (check_enum_string f cv s Hf).
Qed.

(** The guard of each setter accepts exactly the values the specification
    calls valid for the field. *)
Lemma check_valid f v : check f v = None <-> valid f v.
Proof.
  destruct f; cbn [valid].
  all: try (unfold textual, is_sequence; split;
            [ destruct v; intros H; try (vm_compute in H; discriminate); eauto
            | intros H; decompose [ex or] H; subst; reflexivity ]; fail).
  all: try (eapply check_enum_valid; unfold enum_field; eauto; fail).
  split.
  - destruct v as [| | | | |elems|]; try (intros H; vm_compute in H; discriminate).
    rewrite check_shape_array.
    destruct (Z.eqb_spec (Z.of_nat (length elems)) 2) as [Hl|]; [|discriminate].
    apply length_two in Hl as (x & y & ->). cbn [negb index lookup].
    destruct (Number_isInteger _ && _ && _) eqn:Hc; [|discriminate].
    intros _. apply andb_true_iff in Hc as [Hx Hy].
    exists x, y. by rewrite <- !nonneg_integer_test.
  - intros (x & y & -> & Hx & Hy). rewrite check_shape_array.
    apply nonneg_integer_test in Hx, Hy. cbn in *. by rewrite Hx, Hy.
Qed.

(** *** Backing properties *)

Lemma get_slot f this : get f this = prop this (slot f).
Proof. by destruct f. Qed.

Lemma slot_inj f g : slot f = slot g -> f = g.
Proof. destruct f, g; simpl; intros H; try reflexivity; discriminate. Qed.

Lemma elem_of_fields f : f ∈ fields.
Proof. unfold fields. destruct f; set_solver. Qed.

Lemma prop_insert_eq k v (this : Obj) : prop (<[k := v]> this) k = v.
Proof. unfold prop. by rewrite lookup_insert_eq. Qed.

Lemma prop_insert_ne k k' v (this : Obj) :
  k <> k' -> prop (<[k := v]> this) k' = prop this k'.
Proof. intros. unfold prop. by rewrite lookup_insert_ne. Qed.

(** *** The constructor as a run over the field list *)

Lemma assign_all_run fs val this : assign_all fs val this = run fs val this.
Proof.
  revert this. induction fs as [|f fs IH]; intros this; [reflexivity|].
  destruct fs as [|g fs].
  - simpl. rewrite set_spec. by destruct (check f (val f)).
  - change (assign_all (f :: g :: fs) val this)
      with (bind (set f (val f)) (fun _ => assign_all (g :: fs) val) this).
    unfold bind. rewrite set_spec. cbn [run].
    destruct (check f (val f)); [reflexivity|]. apply IH.
Qed.

Lemma constructor_run now arg :
  constructor now arg =
    match destructure arg with
    | inl e => inl e
    | inr o =>
        match run fields (argument now o) ∅ with
        | (inl e, _) => inl e
        | (inr _, this) => inr this
        end
    end.
Proof.
  unfold constructor. destruct (destructure arg) as [e|o]; [reflexivity|].
  rewrite <- assign_all_run. reflexivity.
Qed.

(** A run that completes has found every guard satisfied and leaves every
    field of the list holding its value; the other properties of [this] are
    as before. *)
Lemma run_ok fs val this this' :
  run fs val this = (inr tt, this') ->
  (forall f, f ∈ fs -> check f (val f) = None /\ get f this' = val f) /\
  (forall k, (forall f, f ∈ fs -> slot f <> k) -> this' !! k = this !! k).
Proof.
  revert this. induction fs as [|f fs IH]; intros this Hrun; simpl in Hrun.
  - injection Hrun as <-. split; [intros f Hf; by apply elem_of_nil in Hf|done].
  - destruct (check f (val f)) eqn:Hc; [discriminate|].
    apply IH in Hrun as [Hin Hout]. split.
    + intros g Hg. destruct (decide (g ∈ fs)) as [|Hn]; [by apply Hin|].
      apply elem_of_cons in Hg as [->|]; [|done]. split; [done|].
      rewrite get_slot. unfold prop. rewrite Hout.
      * by rewrite lookup_insert_eq.
      * intros g Hg Heq. apply slot_inj in Heq as ->. done.
    + intros k Hk. rewrite Hout.
      * apply lookup_insert_ne, Hk. by left.
      * intros g Hg. apply Hk. by right.
Qed.

(** A run over fields whose guards are all satisfied completes. *)
Lemma run_all_valid fs val this :
  (forall f, f ∈ fs -> check f (val f) = None) ->
  exists this', run fs val this = (inr tt, this').
Proof.
  revert this. induction fs as [|f fs IH]; intros this Hall; simpl.
  - eauto.
  - rewrite Hall by (by left). apply IH. intros g Hg. apply Hall. by right.
Qed.

(** A run that stops reports the guard of the first field that rejects
    its value. *)
Lemma run_fail fs val this e this' :
  run fs val this = (inl e, this') ->
  exists pre f post,
    fs = (pre ++ f :: post)%list /\
    (forall g, g ∈ pre -> check g (val g) = None) /\
    check f (val f) = Some e.
Proof.
  revert this. induction fs as [|f fs IH]; intros this Hrun; simpl in Hrun;
    [discriminate|].
  destruct (check f (val f)) as [e'|] eqn:Hc.
  - injection Hrun as <- <-. exists [], f, fs.
    split; [done|]. split; [|done]. intros g Hg. by apply elem_of_nil in Hg.
  - apply IH in Hrun as (pre & g & post & -> & Hpre & Hg).
    exists (f :: pre), g, post. split; [done|]. split; [|done].
    intros h Hh. apply elem_of_cons in Hh as [->|]; [done|by apply Hpre].
Qed.

Lemma run_some_invalid fs val this f e :
  f ∈ fs -> check f (val f) = Some e ->
  exists e' this', run fs val this = (inl e', this').
Proof.
  intros Hf Hc. destruct (run fs val this) as [[e'|[]] this'] eqn:Hrun; [eauto|].
  apply run_ok in Hrun as [Hin _]. destruct (Hin f Hf) as [Hn _]. congruence.
Qed.

(** *** What the constructor passes to the setters *)

Lemma prop_or_cases (o : Obj) k d :
  (exists v, o !! k = Some v /\ v <> JUndefined /\ prop_or o k d = v) \/
  ((o !! k = None \/ o !! k = Some JUndefined) /\ prop_or o k d = d).
Proof.
  unfold prop_or. destruct (o !! k) as [v|]; [|by right; eauto].
  destruct v; try (left; eexists; repeat split; [discriminate]); right; eauto.
Qed.

Lemma argument_supplied now o f v : supplied o f v -> argument now o f = v.
Proof.
  intros (Ho & Hu & Hd).
  destruct f; cbn [argument option_name] in *; unfold prop_or; rewrite Ho;
    destruct v; try reflexivity; try done.
  by destruct Hd.
Qed.

Lemma argument_default now o f :
  (forall v, ~ supplied o f v) -> argument now o f = documented_default now f.
Proof.
  intros Hn.
  assert (o !! option_name f = None \/ o !! option_name f = Some JUndefined
          \/ (f = f_date /\ o !! option_name f = Some JNull)) as Ho.
  { destruct (o !! option_name f) as [v|] eqn:Ho; [|by left].
    assert (v = JUndefined \/ v <> JUndefined) as [->|Hu]
      by (destruct v; (by left) || (by right)); [by right; left|].
    assert (v = JNull \/ v <> JNull) as [->|Hnull]
      by (destruct v; (by left) || (by right)).
    - destruct (decide (f = f_date)) as [->|Hf]; [by right; right|].
      exfalso. by apply (Hn JNull).
    - exfalso. by apply (Hn v). }
  destruct f; cbn [argument option_name documented_default] in *;
    unfold prop_or; destruct Ho as [->|[->|[? ->]]]; try discriminate;
    reflexivity.
Qed.

Lemma default_valid now f : check f (documented_default now f) = None.
Proof. by destruct f. Qed.

Lemma argument_cases now o f :
  (exists v, supplied o f v /\ argument now o f = v) \/
  ((forall v, ~ supplied o f v) /\ argument now o f = documented_default now f).
Proof.
  destruct (o !! option_name f) as [v|] eqn:Ho.
  - assert (v = JUndefined \/ v <> JUndefined) as [->|Hu]
      by (destruct v; (by left) || (by right)).
    { right. assert (forall v, ~ supplied o f v) as Hn.
      { intros v (Hv & Hvu & _). congruence. }
      split; [done|]. by apply argument_default. }
    assert (f = f_date /\ v = JNull \/ (f = f_date -> v <> JNull)) as [[-> ->]|Hd].
    { destruct (decide (f = f_date)) as [->|]; [|by right].
      destruct v; (by left) || (by right). }
    + right. assert (forall v, ~ supplied o f_date v) as Hn.
      { intros v (Hv & _ & Hvn). rewrite Ho in Hv. injection Hv as <-.
        by apply Hvn. }
      split; [done|]. by apply argument_default.
    + left. exists v. assert (supplied o f v) by done.
      split; [done|]. by apply argument_supplied.
  - right. assert (forall v, ~ supplied o f v) as Hn.
    { intros v (Hv & _). congruence. }
    split; [done|]. by apply argument_default.
Qed.

(** *** The state invariant *)

Lemma check_undefined f : check f JUndefined <> None.
Proof. by destruct f. Qed.

Lemma valid_state_slot this f :
  valid_state this -> this !! slot f = Some (get f this).
Proof.
  intros Hv. specialize (Hv f). rewrite get_slot in *. unfold prop in *.
  destruct (this !! slot f); [done|]. by apply check_undefined in Hv.
Qed.

Lemma constructor_inv now arg this :
  constructor now arg = inr this ->
  exists o, destructure arg = inr o /\
    forall f, check f (argument now o f) = None /\
              get f this = argument now o f.
Proof.
  rewrite constructor_run. destruct (destructure arg) as [|o]; [discriminate|].
  destruct (run fields (argument now o) ∅) as [[e|[]] this'] eqn:Hrun;
    [discriminate|].
  intros [= ->]. exists o. split; [done|].
  intros f. apply run_ok in Hrun as [Hin _]. apply Hin, elem_of_fields.
Qed.

Lemma constructor_valid_state now arg this :
  constructor now arg = inr this -> valid_state this.
Proof.
  intros (o & _ & Hf)%constructor_inv f. destruct (Hf f) as [? ->]. done.
Qed.

Lemma get_set_eq f v this :
  check f v = None -> get f (snd (set f v this)) = v.
Proof.
  intros Hc. rewrite set_spec, Hc. cbn [snd]. rewrite get_slot.
  apply prop_insert_eq.
Qed.

Lemma get_set_ne f g v this : f <> g -> get g (snd (set f v this)) = get g this.
Proof.
  intros Hne. rewrite set_spec. destruct (check f v); [done|]. cbn [snd].
  rewrite !get_slot. apply prop_insert_ne. intros ?%slot_inj. done.
Qed.

Lemma set_valid_state f v this :
  valid_state this -> valid_state (snd (set f v this)).
Proof.
  intros Hv g. destruct (decide (f = g)) as [<-|Hne].
  - destruct (check f v) eqn:Hc.
    + rewrite set_spec, Hc. apply Hv.
    + by rewrite get_set_eq.
  - rewrite get_set_ne by done. apply Hv.
Qed.

Lemma reachable_valid_state this : reachable this -> valid_state this.
Proof.
  induction 1 as [now arg this Hnew|f v this _ IH].
  - by eapply constructor_valid_state.
  - by apply set_valid_state.
Qed.

(** *** Construction from valid arguments *)

Lemma constructor_all_valid now o :
  (forall f, check f (argument now o f) = None) ->
  exists this,
    constructor now (JObj o) = inr this /\
    forall f, get f this = argument now o f.
Proof.
  intros Hall. rewrite constructor_run. cbn [destructure].
  destruct (run_all_valid fields (argument now o) ∅) as [this Hrun];
    [by intros|].
  rewrite Hrun. exists this. split; [done|].
  intros f. apply run_ok in Hrun as [Hin _]. apply Hin, elem_of_fields.
Qed.

(** With every other supplied value accepted, construction stands or falls
    with the one field. *)
Lemma constructor_one_field now o f v :
  supplied o f v ->
  (forall g w, g <> f -> supplied o g w -> check g w = None) ->
  match check f v with
  | Some e => constructor now (JObj o) = inl e
  | None => exists this, constructor now (JObj o) = inr this /\ get f this = v
  end.
Proof.
  intros Hs Hothers.
  assert (forall g, g <> f -> check g (argument now o g) = None) as Hg.
  { intros g Hne. destruct (argument_cases now o g) as [(w & Hw & ->)|[_ ->]].
    - by apply Hothers.
    - apply default_valid. }
  pose proof (argument_supplied now o f v Hs) as Hf.
  destruct (check f v) as [e|] eqn:Hc.
  - rewrite constructor_run. cbn [destructure].
    destruct (run_some_invalid fields (argument now o) ∅ f e)
      as (e' & this' & Hrun); [apply elem_of_fields|by rewrite Hf|].
    rewrite Hrun.
    apply run_fail in Hrun as (pre & g & post & _ & _ & Hge).
    destruct (decide (g = f)) as [->|Hne]; [|rewrite Hg in Hge; done].
    rewrite Hf in Hge. congruence.
  - destruct (constructor_all_valid now o) as (this & Hnew & Hget).
    + intros g. destruct (decide (g = f)) as [->|Hne]; [by rewrite Hf|by apply Hg].
    + exists this. by rewrite Hget.
Qed.

Lemma constructor_destructure now arg o :
  destructure arg = inr o -> constructor now arg = constructor now (JObj o).
Proof. intros H. unfold constructor. rewrite H. reflexivity. Qed.

Lemma empty_table_new : constructor 1478109296789 JUndefined = inr empty_table.
Proof. reflexivity. Qed.

Lemma empty_table_reachable : reachable empty_table.
Proof. eapply reachable_new, empty_table_new. Qed.

Lemma not_in_TYPE_CV : "Invalid table" ∉ TYPE_CV.
Proof. by apply (bool_decide_unpack _). Qed.

End V1Facts.

(** ** Version 2: what the constructor stores *)
Module V2Facts.
Import V2.

(** The constructor never throws on a configuration object: it stores the
    destructured values as they are. *)
Lemma constructor_stores now o :
  constructor now (JObj o) =
    inr (<["_data" := prop_or o "data" (prop DEFAULT_BIOM "data")]>
        (<["_shape" := prop_or o "shape" (prop DEFAULT_BIOM "shape")]>
        (<["_matrix_element_type" :=
             prop_or o "matrix_element_type"
                     (prop DEFAULT_BIOM "matrix_element_type")]>
        (<["_matrix_type" :=
             prop_or o "matrix_type" (prop DEFAULT_BIOM "matrix_type")]>
        (<["_columns" := prop_or o "columns" (prop DEFAULT_BIOM "columns")]>
        (<["_rows" := prop_or o "rows" (prop DEFAULT_BIOM "rows")]>
        (<["_date" := prop_or o "date" (Date_now now)]>
        (<["_generated_by" :=
             prop_or o "generated_by" (prop DEFAULT_BIOM "generated_by")]>
        (<["_type" := prop_or o "type" (prop DEFAULT_BIOM "type")]>
        (<["_format_url" :=
             prop_or o "format_url" (prop DEFAULT_BIOM "format_url")]>
        (<["_format" := prop_or o "format" (prop DEFAULT_BIOM "format")]>
        (<["_id" := prop_or o "id" JNull]> ∅)))))))))))).
Proof. reflexivity. Qed.

Lemma prop_or_supplied (o : Obj) k d v :
  o !! k = Some v -> v <> JUndefined -> prop_or o k d = v.
Proof. intros Ho Hv. unfold prop_or. rewrite Ho. by destruct v. Qed.

(** What the read accessors return on a constructed instance. *)
Lemma constructor_get now o :
  exists this,
    constructor now (JObj o) = inr this /\
    get_id this = prop_or o "id" JNull /\
    get_format this = prop_or o "format" (prop DEFAULT_BIOM "format") /\
    get_format_url this =
      prop_or o "format_url" (prop DEFAULT_BIOM "format_url") /\
    get_type this = prop_or o "type" (prop DEFAULT_BIOM "type") /\
    get_generated_by this =
      prop_or o "generated_by" (prop DEFAULT_BIOM "generated_by") /\
    get_date this = prop_or o "date" (Date_now now) /\
    get_rows this = prop_or o "rows" (prop DEFAULT_BIOM "rows") /\
    get_columns this = prop_or o "columns" (prop DEFAULT_BIOM "columns") /\
    get_matrix_type this =
      prop_or o "matrix_type" (prop DEFAULT_BIOM "matrix_type") /\
    get_matrix_element_type this =
      prop_or o "matrix_element_type"
              (prop DEFAULT_BIOM "matrix_element_type") /\
    get_shape this = prop_or o "shape" (prop DEFAULT_BIOM "shape") /\
    get_data this = prop_or o "data" (prop DEFAULT_BIOM "data").
Proof.
  eexists. split; [apply constructor_stores|].
  unfold get_id, get_format, get_format_url, get_type, get_generated_by,
    get_date, get_rows, get_columns, get_matrix_type,
    get_matrix_element_type, get_shape, get_data, prop.
  repeat split; by simplify_map_eq.
Qed.

End V2Facts.

(** ** Version 1 with shared default arrays *)
Module V1SharedFacts.
Import V1 V1Spec V1Shared.

Lemma read_argument now o f :
  read loaded (V1Shared.argument now o f) = V1.argument now o f.
Proof.
  destruct f; cbn [V1Shared.argument V1.argument option_name default_of];
    unfold param, prop_or; destruct (o !! _) as [[]|]; reflexivity.
Qed.

Lemma assign_each_run D fs val val' this :
  (forall f, read D (val f) = val' f) ->
  match assign_each D fs val this with
  | (r, this') => (r, read D <$> this')
  end
  = run fs val' (read D <$> this).
Proof.
  intros Hval. revert this. induction fs as [|f fs IH]; intros this;
    [reflexivity|].
  cbn [assign_each run]. unfold V1Shared.set. rewrite Hval.
  destruct (check f (val' f)); [reflexivity|].
  rewrite IH. by rewrite fmap_insert, Hval.
Qed.

(** In the module state as loaded, the constructor with shared arrays
    builds what [V1.constructor] builds. *)
Lemma constructor_loaded now arg :
  erase loaded (V1Shared.constructor loaded now arg) = V1.constructor now arg.
Proof.
  rewrite V1Facts.constructor_run. unfold V1Shared.constructor.
  destruct (destructure arg) as [e|o]; [reflexivity|].
  pose proof (assign_each_run loaded fields (V1Shared.argument now o)
                (V1.argument now o) ∅ (read_argument now o)) as H.
  rewrite fmap_empty in H. rewrite <- H.
  by destruct (assign_each loaded fields (V1Shared.argument now o) ∅)
    as [[e|[]] this].
Qed.

End V1SharedFacts.

(** * The claims *)

(** C1, as it holds of version 1.  When a configuration supplies a value
    that the setter of its field rejects, construction yields no instance:
    it throws the exception of the first field, in the order of assignment,
    whose supplied value is rejected; when only one supplied value is
    rejected, that is the exception of its field. *)
Theorem V1_construction_rejects_invalid now o f v e :
  V1Spec.supplied o f v ->
  V1.check f v = Some e ->
  (exists pre g post w e',
     V1.fields = (pre ++ g :: post)%list /\
     V1Spec.supplied o g w /\
     V1.check g w = Some e' /\
     (forall h u, h ∈ pre -> V1Spec.supplied o h u -> V1.check h u = None) /\
     V1.constructor now (JObj o) = inl e') /\
  ((forall g w, g <> f -> V1Spec.supplied o g w -> V1.check g w = None) ->
   V1.constructor now (JObj o) = inl e).
Proof.
  intros Hs Hc. split.
  - rewrite V1Facts.constructor_run. cbn [destructure].
    destruct (V1Facts.run_some_invalid V1.fields (V1.argument now o) ∅ f e)
      as (e' & this' & Hrun).
    { apply V1Facts.elem_of_fields. }
    { by rewrite (V1Facts.argument_supplied now o f v). }
    rewrite Hrun.
    apply V1Facts.run_fail in Hrun as (pre & g & post & Hfs & Hpre & Hg).
    destruct (V1Facts.argument_cases now o g) as [(w & Hw & Harg)|[_ Harg]].
    + exists pre, g, post, w, e'. rewrite Harg in Hg.
      do 3 (split; [done|]). split; [|done].
      intros h u Hh Hu. rewrite <- (V1Facts.argument_supplied now o h u Hu).
      by apply Hpre.
    + rewrite Harg, V1Facts.default_valid in Hg. discriminate.
  - intros Hothers.
    pose proof (V1Facts.constructor_one_field now o f v Hs Hothers) as H.
    by rewrite Hc in H.
Qed.

(** The shape (2, -1) is rejected at construction. *)
Lemma V1_construction_rejects_invalid_witness :
  let shape := JArr [JNum (Finite 2); JNum (Finite (-1))] in
  let o : Obj := {[ "type" := JStr "Gene table"; "shape" := shape ]} in
  V1Spec.supplied o V1.f_shape shape /\
  V1.check V1.f_shape shape
  = Some (Error "shape does not contain non-negative integers") /\
  V1.constructor 0 (JObj o)
  = inl (Error "shape does not contain non-negative integers").
Proof.
  intros shape o.
  assert (V1Spec.supplied o V1.f_shape shape) as Hs
    by (split; [reflexivity|]; split; discriminate).
  assert (V1.check V1.f_shape shape
          = Some (Error "shape does not contain non-negative integers")) as Hc
    by reflexivity.
  split; [exact Hs|]. split; [exact Hc|].
  apply (proj2 (V1_construction_rejects_invalid 0 o V1.f_shape shape _ Hs Hc)).
  intros g w Hg [Hw _]. destruct g; try discriminate; try done.
  injection Hw as <-. reflexivity.
Defined.

(** C1 fails of version 2: its constructor accepts the shape (2, -1) and
    the id 42, neither of them valid (the second is rejected by version 2's
    own setter for [id]), and yields an instance that holds them. *)
Lemma V2_construction_accepts_invalid :
  let shape := JArr [JNum (Finite 2); JNum (Finite (-1))] in
  let o : Obj := {[ "id" := JNum (Finite 42); "shape" := shape ]} in
  ~ V1Spec.valid V1.f_shape shape /\
  ~ V1Spec.valid V1.f_id (JNum (Finite 42)) /\
  fst (V2.set_id (JNum (Finite 42)) ∅)
  = inl (TypeError "id must be string or null") /\
  exists this,
    V2.constructor 0 (JObj o) = inr this /\
    V2.get_id this = JNum (Finite 42) /\
    V2.get_shape this = shape.
Proof.
  intros shape o. split; [|split; [|split]].
  - intros Hv%V1Facts.check_valid. discriminate.
  - intros Hv%V1Facts.check_valid. discriminate.
  - reflexivity.
  - eexists. split; [apply V2Facts.constructor_stores|]. by split.
Qed.

(** C2, as it holds of version 1.  In every state reached by a successful
    construction followed by any assignments, successful or not, the three
    enum fields hold members of their controlled vocabularies. *)
Theorem V1_enum_fields_in_vocabulary this :
  V1.reachable this ->
  in_vocabulary TYPE_CV (V1.get_type this) /\
  in_vocabulary MATRIX_TYPE_CV (V1.get_matrix_type this) /\
  in_vocabulary MATRIX_ELEMENT_TYPE_CV (V1.get_matrix_element_type this).
Proof.
  intros Hv%V1Facts.reachable_valid_state.
  pose proof (Hv V1.f_type) as Ht.
  pose proof (Hv V1.f_matrix_type) as Hm.
  pose proof (Hv V1.f_matrix_element_type) as He.
  apply V1Facts.check_valid in Ht, Hm, He. done.
Qed.

(** After a rejected and an accepted assignment to [type]. *)
Lemma V1_enum_fields_in_vocabulary_witness :
  let this :=
    snd (V1.set V1.f_type (JStr "Gene table")
           (snd (V1.set V1.f_type (JStr "Invalid table") V1Spec.empty_table))) in
  V1.reachable this /\
  in_vocabulary TYPE_CV (V1.get_type this) /\
  in_vocabulary MATRIX_TYPE_CV (V1.get_matrix_type this) /\
  in_vocabulary MATRIX_ELEMENT_TYPE_CV (V1.get_matrix_element_type this).
Proof.
  intros this.
  assert (V1.reachable this) as Hr
    by (do 2 apply V1.reachable_set; apply V1Facts.empty_table_reachable).
  split; [exact Hr|]. exact (V1_enum_fields_in_vocabulary this Hr).
Defined.

(** C2 fails of version 2: a constructed instance can hold a type outside
    the vocabulary. *)
Lemma V2_type_out_of_vocabulary :
  exists this,
    V2.constructor 0 (JObj {[ "type" := JStr "Invalid table" ]}) = inr this /\
    V2.reachable this /\
    ~ in_vocabulary TYPE_CV (V2.get_type this).
Proof.
  eexists. split; [apply V2Facts.constructor_stores|]. split.
  - eapply V2.reachable_new, V2Facts.constructor_stores.
  - intros (s & Hs & Hin). vm_compute in Hs. injection Hs as <-.
    by apply V1Facts.not_in_TYPE_CV.
Qed.

(** C3.  [this.shape = v] throws a [TypeError] when [v] is not an array,
    the arity error when the array does not have exactly two elements, the
    domain error when one of the two is not a non-negative integer, and
    otherwise stores [v]; a constructor call supplying [v] as the shape,
    with every other supplied value acceptable, ends the same way. *)
Theorem V1_shape_assignment v this :
  (~ is_sequence v ->
   exists e, V1.set_shape v this = (inl e, this) /\ TypeMismatch e) /\
  (forall elems, v = JArr elems -> length elems <> 2%nat ->
   exists e, V1.set_shape v this = (inl e, this) /\ ArityViolation e) /\
  (forall x y, v = JArr [x; y] -> ~ (nonneg_integer x /\ nonneg_integer y) ->
   exists e, V1.set_shape v this = (inl e, this) /\ DomainViolation e) /\
  (forall x y, v = JArr [x; y] -> nonneg_integer x -> nonneg_integer y ->
   V1.set_shape v this = (inr tt, <["_shape" := v]> this) /\
   V1.get_shape (<["_shape" := v]> this) = v) /\
  (forall now o,
     V1Spec.supplied o V1.f_shape v ->
     (forall g w, g <> V1.f_shape -> V1Spec.supplied o g w ->
                  V1.check g w = None) ->
     match fst (V1.set_shape v this) with
     | inl e => V1.constructor now (JObj o) = inl e
     | inr _ =>
         exists this', V1.constructor now (JObj o) = inr this' /\
                       V1.get_shape this' = v
     end).
Proof.
  change (V1.set_shape v this) with (V1.set V1.f_shape v this).
  rewrite V1Facts.set_spec. cbn [V1.slot V1.option_name String.append].
  split; [|split; [|split; [|split]]].
  - intros Hseq. destruct v; try (eexists; split; [reflexivity|by eexists]).
    destruct Hseq. by eexists.
  - intros elems -> Hlen. rewrite V1Facts.check_shape_array.
    destruct (Z.eqb_spec (Z.of_nat (length elems)) 2) as [Heq|_]; [lia|].
    eexists. split; reflexivity.
  - intros x y -> Hxy.
    destruct (V1.check V1.f_shape (JArr [x; y])) as [e|] eqn:Hc.
    + rewrite V1Facts.check_shape_array in Hc.
      change (negb (Z.of_nat (length [x; y]) =? 2)) with false in Hc.
      cbv iota in Hc.
      match type of Hc with
      | (if ?c then _ else _) = _ => destruct c; [|discriminate]
      end.
      injection Hc as <-. eexists. split; reflexivity.
    + apply V1Facts.check_valid in Hc as (x' & y' & [= <- <-] & ? & ?).
      by destruct Hxy.
  - intros x y -> Hx Hy.
    assert (V1.check V1.f_shape (JArr [x; y]) = None) as ->.
    { apply V1Facts.check_valid. by exists x, y. }
    split; [reflexivity|]. apply V1Facts.prop_insert_eq.
  - intros now o Hs Hothers.
    pose proof (V1Facts.constructor_one_field now o V1.f_shape v Hs Hothers) as H.
    by destruct (V1.check V1.f_shape v).
Qed.

(** The shapes of the specification's examples: (2, 3) is stored, (2, -1)
    and (2) are rejected, at assignment and at construction. *)
Lemma V1_shape_assignment_witness :
  let two_three := JArr [JNum (Finite 2); JNum (Finite 3)] in
  let two_minus_one := JArr [JNum (Finite 2); JNum (Finite (-1))] in
  let two := JArr [JNum (Finite 2)] in
  (V1.set_shape two_three V1Spec.empty_table =
     (inr tt, <["_shape" := two_three]> V1Spec.empty_table) /\
   V1.get_shape (<["_shape" := two_three]> V1Spec.empty_table) = two_three) /\
  (exists e, V1.set_shape two_minus_one V1Spec.empty_table =
               (inl e, V1Spec.empty_table) /\ DomainViolation e) /\
  (exists e, V1.set_shape two V1Spec.empty_table =
               (inl e, V1Spec.empty_table) /\ ArityViolation e) /\
  (exists e, V1.set_shape (JStr "2x3") V1Spec.empty_table =
               (inl e, V1Spec.empty_table) /\ TypeMismatch e) /\
  (exists this', V1.constructor 0 (JObj {[ "shape" := two_three ]}) = inr this' /\
                 V1.get_shape this' = two_three) /\
  V1.constructor 0 (JObj {[ "shape" := two_minus_one ]})
  = inl (Error "shape does not contain non-negative integers").
Proof.
  intros two_three two_minus_one two.
  assert (nonneg_integer (JNum (Finite 2))) as H2
    by (exists 2%Q, 2%N; split; reflexivity).
  assert (nonneg_integer (JNum (Finite 3))) as H3
    by (exists 3%Q, 3%N; split; reflexivity).
  assert (~ nonneg_integer (JNum (Finite (-1)))) as Hm.
  { intros (q & n & [= <-] & Hq). unfold Qeq in Hq. simpl in Hq. lia. }
  assert (forall v (o : Obj) g w,
            o = {[ "shape" := v ]} -> g <> V1.f_shape ->
            V1Spec.supplied o g w -> V1.check g w = None) as Hothers.
  { intros v o g w -> Hg (Hw & _). destruct g; try discriminate. done. }
  split; [|split; [|split; [|split; [|split]]]].
  - exact (proj1 (proj2 (proj2 (proj2
             (V1_shape_assignment two_three V1Spec.empty_table))))
             _ _ eq_refl H2 H3).
  - apply (proj1 (proj2 (proj2
             (V1_shape_assignment two_minus_one V1Spec.empty_table)))
             _ _ eq_refl).
    by intros [_ ?].
  - apply (proj1 (proj2 (V1_shape_assignment two V1Spec.empty_table))
             _ eq_refl).
    discriminate.
  - apply (proj1 (V1_shape_assignment (JStr "2x3") V1Spec.empty_table)).
    intros [? ?]. discriminate.
  - apply (proj2 (proj2 (proj2 (proj2
             (V1_shape_assignment two_three V1Spec.empty_table))))
             0 {[ "shape" := two_three ]}).
    + split; [reflexivity|]. split; discriminate.
    + intros g w. exact (Hothers _ _ g w eq_refl).
  - apply (proj2 (proj2 (proj2 (proj2
             (V1_shape_assignment two_minus_one V1Spec.empty_table))))
             0 {[ "shape" := two_minus_one ]}).
    + split; [reflexivity|]. split; discriminate.
    + intros g w. exact (Hothers _ _ g w eq_refl).
Defined.

(** C4.  For each enum field: a member of its vocabulary is stored and read
    back unchanged; a string outside the vocabulary is rejected with the
    vocabulary error; a value that is not a string is rejected with a
    [TypeError], whatever the vocabulary says. *)
Theorem V1_enum_assignment f cv v this :
  V1Spec.enum_field f cv ->
  (in_vocabulary cv v ->
   V1.set f v this = (inr tt, <[V1.slot f := v]> this) /\
   V1.get f (<[V1.slot f := v]> this) = v) /\
  (textual v -> ~ in_vocabulary cv v ->
   exists e, V1.set f v this = (inl e, this) /\ VocabularyViolation e) /\
  (~ textual v ->
   exists e, V1.set f v this = (inl e, this) /\ TypeMismatch e).
Proof.
  intros Hf. rewrite V1Facts.set_spec. split; [|split].
  - intros Hv. apply (V1Facts.check_enum_valid f cv v Hf) in Hv as ->.
    split; [done|]. rewrite V1Facts.get_slot. apply V1Facts.prop_insert_eq.
  - intros [s ->] Hv.
    destruct (V1Facts.check_enum_string f cv s Hf) as [_ Hout].
    destruct Hout as (e & -> & He); [|by exists e].
    intros Hin. apply Hv. by exists s.
  - intros Hv. destruct (V1Facts.check_enum_other f cv v Hf Hv) as [m ->].
    eexists. split; [done|]. by exists m.
Qed.

(** [type] on the default table: "Gene table" is stored, "Invalid table"
    and the number 42 are rejected. *)
Lemma V1_enum_assignment_witness :
  V1Spec.enum_field V1.f_type TYPE_CV /\
  (V1.set V1.f_type (JStr "Gene table") V1Spec.empty_table =
     (inr tt, <["_type" := JStr "Gene table"]> V1Spec.empty_table) /\
   V1.get V1.f_type (<["_type" := JStr "Gene table"]> V1Spec.empty_table)
   = JStr "Gene table") /\
  (exists e, V1.set V1.f_type (JStr "Invalid table") V1Spec.empty_table =
               (inl e, V1Spec.empty_table) /\ VocabularyViolation e) /\
  (exists e, V1.set V1.f_type (JNum (Finite 42)) V1Spec.empty_table =
               (inl e, V1Spec.empty_table) /\ TypeMismatch e).
Proof.
  assert (V1Spec.enum_field V1.f_type TYPE_CV) as Hf by (left; done).
  split; [exact Hf|]. split; [|split].
  - apply (proj1 (V1_enum_assignment V1.f_type TYPE_CV (JStr "Gene table")
                    V1Spec.empty_table Hf)).
    exists "Gene table". split; [done|]. by apply (bool_decide_unpack _).
  - apply (proj1 (proj2 (V1_enum_assignment V1.f_type TYPE_CV
                           (JStr "Invalid table") V1Spec.empty_table Hf))).
    + by eexists.
    + intros (s & [= <-] & Hin). by apply V1Facts.not_in_TYPE_CV.
  - apply (proj2 (proj2 (V1_enum_assignment V1.f_type TYPE_CV
                           (JNum (Finite 42)) V1Spec.empty_table Hf))).
    intros [? ?]. discriminate.
Defined.

(** C5, as it holds of version 1.  When the configuration leaves the date
    unset and every value it supplies is acceptable, the constructed table's
    date is the ISO 8601 string of the clock reading: a non-empty string
    that parses back to the reading. *)
Theorem V1_date_stamped now arg o :
  Date.time_value now ->
  destructure arg = inr o ->
  V1Spec.date_unset o ->
  (forall f v, V1Spec.supplied o f v -> V1.check f v = None) ->
  exists this,
    V1.constructor now arg = inr this /\
    V1.get_date this = JStr (Date.toISOString now) /\
    Date.parse (Date.toISOString now) = Some now /\
    Date.toISOString now <> EmptyString.
Proof.
  intros Hnow Harg Hdate Hvalid.
  rewrite (V1Facts.constructor_destructure now arg o Harg).
  destruct (V1Facts.constructor_all_valid now o) as (this & Hnew & Hget).
  { intros f.
    destruct (V1Facts.argument_cases now o f) as [(v & Hv & ->)|[_ ->]].
    - by apply Hvalid.
    - apply V1Facts.default_valid. }
  exists this. split; [done|]. split; [|split].
  - change (V1.get V1.f_date this = JStr (Date.toISOString now)).
    rewrite Hget. cbn [V1.argument]. unfold prop_or.
    by destruct Hdate as [->|[->| ->]].
  - by apply DateFacts.parse_toISOString.
  - apply DateFacts.toISOString_nonempty.
Qed.

(** A table constructed with no arguments on 2 November 2016. *)
Lemma V1_date_stamped_witness :
  Date.time_value 1478109296789 /\
  destructure JUndefined = inr ∅ /\
  V1Spec.date_unset ∅ /\
  exists this,
    V1.constructor 1478109296789 JUndefined = inr this /\
    V1.get_date this = JStr "2016-11-02T17:54:56.789Z" /\
    Date.parse "2016-11-02T17:54:56.789Z" = Some 1478109296789 /\
    "2016-11-02T17:54:56.789Z" <> EmptyString.
Proof.
  assert (Date.time_value 1478109296789) as Hnow by (unfold Date.time_value; lia).
  assert (V1Spec.date_unset ∅) as Hdate by (by left).
  split; [exact Hnow|]. split; [reflexivity|]. split; [exact Hdate|].
  apply (V1_date_stamped 1478109296789 JUndefined ∅ Hnow eq_refl Hdate).
  intros f v [Hv _]. by rewrite lookup_empty in Hv.
Defined.

(** C5 fails of version 2: with the date omitted the instance holds the
    number that [Date.now()] returned, not a string, and a [null] date is
    stored as it is. *)
Lemma V2_date_is_not_textual :
  (exists this,
     V2.constructor 1478109296789 JUndefined = inr this /\
     V2.get_date this = JNum (Finite 1478109296789) /\
     typeof (V2.get_date this) = "number" /\
     ~ textual (V2.get_date this)) /\
  (exists this,
     V2.constructor 1478109296789 (JObj {[ "date" := JNull ]}) = inr this /\
     V2.get_date this = JNull /\
     ~ textual (V2.get_date this)).
Proof.
  split; eexists; (split; [reflexivity|]).
  - split; [reflexivity|]. split; [reflexivity|]. intros [s Hs]. discriminate.
  - split; [reflexivity|]. intros [s Hs]. discriminate.
Qed.

(** C6.  An assignment that throws leaves [this] exactly as it was: every
    field reads as before. *)
Theorem V1_failed_assignment_leaves_state f v this e this' :
  V1.set f v this = (inl e, this') ->
  this' = this /\ forall g, V1.get g this' = V1.get g this.
Proof.
  rewrite V1Facts.set_spec. destruct (V1.check f v); [|discriminate].
  intros [= _ <-]. done.
Qed.

(** Assigning "Invalid table" to [type] on the default table. *)
Lemma V1_failed_assignment_leaves_state_witness :
  V1.set V1.f_type (JStr "Invalid table") V1Spec.empty_table =
    (inl (Error "type must be part of the controlled vocabulary"),
     V1Spec.empty_table) /\
  V1.get_type V1Spec.empty_table = JStr "OTU table" /\
  forall g, V1.get g V1Spec.empty_table = V1.get g V1Spec.empty_table.
Proof.
  assert (V1.set V1.f_type (JStr "Invalid table") V1Spec.empty_table =
            (inl (Error "type must be part of the controlled vocabulary"),
             V1Spec.empty_table)) as Hset by reflexivity.
  split; [exact Hset|]. split; [reflexivity|].
  exact (proj2 (V1_failed_assignment_leaves_state _ _ _ _ _ Hset)).
Defined.

(** C7 is what the documentation of the defaults promises, and the code
    breaks it by sharing its default arrays.  A table built without
    arguments holds in [rows] and [shape] the arrays of [DEFAULT_BIOM]
    themselves.  After [a.rows.push(x)] on such a table [a], a table built
    without arguments reads [[x]] in [rows], not the empty default (and so
    does [a]); after [a.shape[1] = -1], construction without arguments
    throws. *)
Theorem V1_default_arrays_leak now now' x :
  exists a,
    V1Shared.constructor V1Shared.loaded now JUndefined = inr a /\
    V1Shared.get V1.f_rows a = V1Shared.Shared V1Shared.c_rows /\
    V1Shared.get V1.f_shape a = V1Shared.Shared V1Shared.c_shape /\
    V1Shared.read V1Shared.loaded (V1Shared.get V1.f_rows a) = JArr [] /\
    (let D := V1Shared.push (V1Shared.get V1.f_rows a) x V1Shared.loaded in
     exists b,
       V1Shared.constructor D now' JUndefined = inr b /\
       V1Shared.read D (V1Shared.get V1.f_rows b) = JArr [x] /\
       V1Shared.read D (V1Shared.get V1.f_rows a) = JArr [x]) /\
    (let D :=
       V1Shared.store (V1Shared.get V1.f_shape a) 1 (JNum (Finite (-1)))
         V1Shared.loaded in
     V1Shared.constructor D now' JUndefined
     = inl (Error "shape does not contain non-negative integers")).
Proof.
  eexists. split; [reflexivity|]. split; [reflexivity|]. split; [reflexivity|].
  split; [reflexivity|]. split.
  - eexists. split; [reflexivity|]. split; reflexivity.
  - reflexivity.
Qed.

(** The round trip of configurations in the module state as loaded, that
    is, as long as no caller has written into a default array: when every
    value the configuration supplies is valid for its field, construction
    succeeds; each supplied value is read back as it was given, and each
    field that was not supplied reads its default (for [date], the stamp
    that the constructor takes from the clock). *)
Theorem V1_construction_round_trip now arg o :
  destructure arg = inr o ->
  (forall f v, V1Spec.supplied o f v -> V1Spec.valid f v) ->
  exists this,
    V1.constructor now arg = inr this /\
    (forall f v, V1Spec.supplied o f v -> V1.get f this = v) /\
    (forall f, (forall v, ~ V1Spec.supplied o f v) ->
               V1.get f this = V1Spec.documented_default now f).
Proof.
  intros Harg Hvalid.
  rewrite (V1Facts.constructor_destructure now arg o Harg).
  destruct (V1Facts.constructor_all_valid now o) as (this & Hnew & Hget).
  { intros f.
    destruct (V1Facts.argument_cases now o f) as [(v & Hv & ->)|[_ ->]].
    - apply V1Facts.check_valid, Hvalid, Hv.
    - apply V1Facts.default_valid. }
  exists this. split; [done|]. split.
  - intros f v Hs. rewrite Hget. by apply V1Facts.argument_supplied.
  - intros f Hn. rewrite Hget. by apply V1Facts.argument_default.
Qed.

(** A sparse table given by its triples: the entries are read back, the
    other fields take their defaults. *)
Lemma V1_construction_round_trip_witness :
  let triples :=
    JArr [ JArr [JNum (Finite 0); JNum (Finite 1); JNum (Finite 5)];
           JArr [JNum (Finite 1); JNum (Finite 2); JNum (Finite 3)] ] in
  let o : Obj := {[ "matrix_type" := JStr "sparse"; "data" := triples ]} in
  (forall f v, V1Spec.supplied o f v -> V1Spec.valid f v) /\
  exists this,
    V1.constructor 0 (JObj o) = inr this /\
    (forall f v, V1Spec.supplied o f v -> V1.get f this = v) /\
    (forall f, (forall v, ~ V1Spec.supplied o f v) ->
               V1.get f this = V1Spec.documented_default 0 f).
Proof.
  intros triples o.
  assert (forall f v, V1Spec.supplied o f v -> V1Spec.valid f v) as Hvalid.
  { intros f v [Ho _]. destruct f; try discriminate; injection Ho as <-.
    - exists "sparse". split; [done|]. by apply (bool_decide_unpack _).
    - by eexists. }
  split; [exact Hvalid|].
  exact (V1_construction_round_trip 0 (JObj o) o eq_refl Hvalid).
Defined.

(** Constructed with no arguments, the table shows the defaults. *)
Example V1_new_without_arguments :
  exists this,
    V1.constructor 1478109296789 JUndefined = inr this /\
    V1.get_id this = JNull /\
    V1.get_format this = JStr "Biological Observation Matrix 1.0.0" /\
    V1.get_format_url this = JStr "http://biom-format.org" /\
    V1.get_type this = JStr "OTU table" /\
    V1.get_generated_by this = JStr "biojs-io-biom v0.1.0" /\
    V1.get_date this = JStr "2016-11-02T17:54:56.789Z" /\
    V1.get_rows this = JArr [] /\
    V1.get_columns this = JArr [] /\
    V1.get_matrix_type this = JStr "sparse" /\
    V1.get_matrix_element_type this = JStr "float" /\
    V1.get_shape this = JArr [JNum (Finite 0); JNum (Finite 0)] /\
    V1.get_data this = JArr [] /\
    V1.get_comment this = JNull.
Proof. eexists. split; [apply V1Facts.empty_table_new|]. repeat split. Qed.

(** C8.  Whether [this.f = v] is accepted does not depend on the state it is
    run in; when it is accepted, field [f] reads [v] afterwards and every
    other field reads as before; and in a reachable state, assigning to a
    field the value it holds is accepted and changes nothing. *)
Theorem V1_assignment_frame f v this :
  (forall other, fst (V1.set f v other) = fst (V1.set f v this)) /\
  (forall this',
     V1.set f v this = (inr tt, this') ->
     V1.get f this' = v /\
     forall g, g <> f -> V1.get g this' = V1.get g this) /\
  (V1.reachable this -> V1.set f (V1.get f this) this = (inr tt, this)).
Proof.
  split; [|split].
  - intros other. rewrite !V1Facts.set_spec. by destruct (V1.check f v).
  - intros this' Hset.
    assert (V1.check f v = None) as Hc.
    { rewrite V1Facts.set_spec in Hset. by destruct (V1.check f v). }
    replace this' with (snd (V1.set f v this)) by (by rewrite Hset). split.
    + by apply V1Facts.get_set_eq.
    + intros g Hne. by apply V1Facts.get_set_ne.
  - intros Hv%V1Facts.reachable_valid_state.
    rewrite V1Facts.set_spec, (Hv f). f_equal.
    by apply insert_id, V1Facts.valid_state_slot.
Qed.

(** Storing two sparse triples in [data] of the default table. *)
Lemma V1_assignment_frame_witness :
  let triples :=
    JArr [ JArr [JNum (Finite 0); JNum (Finite 1); JNum (Finite 5)];
           JArr [JNum (Finite 1); JNum (Finite 2); JNum (Finite 3)] ] in
  let this' := <["_data" := triples]> V1Spec.empty_table in
  V1.set V1.f_data triples V1Spec.empty_table = (inr tt, this') /\
  V1.reachable V1Spec.empty_table /\
  (V1.get V1.f_data this' = triples /\
   forall g, g <> V1.f_data -> V1.get g this' = V1.get g V1Spec.empty_table) /\
  V1.set V1.f_data (V1.get V1.f_data V1Spec.empty_table) V1Spec.empty_table
  = (inr tt, V1Spec.empty_table).
Proof.
  intros triples this'.
  pose proof (V1_assignment_frame V1.f_data triples V1Spec.empty_table)
    as (_ & Hframe & Hsame).
  assert (V1.set V1.f_data triples V1Spec.empty_table = (inr tt, this'))
    as Hset by reflexivity.
  split; [exact Hset|]. split; [exact V1Facts.empty_table_reachable|].
  split; [exact (Hframe this' Hset)|].
  pose proof (V1_assignment_frame V1.f_data
                (V1.get V1.f_data V1Spec.empty_table) V1Spec.empty_table)
    as (_ & _ & Hidem).
  exact (Hidem V1Facts.empty_table_reachable).
Defined.

(** C9 fails: the setter of [data] looks at nothing but the array tag, so a
    table can say "sparse" over data that are not triples. *)
Lemma V1_sparse_tag_over_dense_rows :
  let rows :=
    JArr [ JArr [JNum (Finite 1); JNum (Finite 2); JNum (Finite 3); JNum (Finite 4)];
           JArr [JNum (Finite 5); JNum (Finite 6); JNum (Finite 7); JNum (Finite 8)] ] in
  exists this,
    V1.constructor 0 (JObj {[ "data" := rows ]}) = inr this /\
    V1.reachable this /\
    V1.get_matrix_type this = JStr "sparse" /\
    V1.get_data this = rows /\
    ~ sparse_triples (V1.get_data this).
Proof.
  intros rows.
  destruct (V1Facts.constructor_all_valid 0 {[ "data" := rows ]})
    as (this & Hnew & Hget); [by intros []|].
  exists this. split; [done|]. split; [by eapply V1.reachable_new|].
  pose proof (Hget V1.f_matrix_type) as Hm. pose proof (Hget V1.f_data) as Hd.
  cbn [V1.get] in Hm, Hd. rewrite Hm, Hd. split; [done|]. split; [done|].
  intros (elems & [= <-] & Hall).
  destruct (Hall (JArr [JNum (Finite 1); JNum (Finite 2); JNum (Finite 3);
                        JNum (Finite 4)])) as (r & c & x & Heq); [by left|].
  discriminate.
Qed.

(** C9, as the code has it.  In every reachable state [matrix_type] is
    "sparse" or "dense" and [data] is an array; what the array holds is up
    to the caller: from any reachable state, any array can be stored under
    either tag. *)
Theorem V1_matrix_type_and_data this :
  V1.reachable this ->
  (V1.get_matrix_type this = JStr "sparse" \/
   V1.get_matrix_type this = JStr "dense") /\
  is_sequence (V1.get_data this) /\
  forall elems tag, tag ∈ MATRIX_TYPE_CV ->
    let this' :=
      snd (V1.set_matrix_type (JStr tag)
             (snd (V1.set_data (JArr elems) this))) in
    V1.reachable this' /\
    V1.get_matrix_type this' = JStr tag /\
    V1.get_data this' = JArr elems.
Proof.
  intros Hr. pose proof (V1Facts.reachable_valid_state this Hr) as Hv.
  pose proof (Hv V1.f_matrix_type) as Hm. pose proof (Hv V1.f_data) as Hd.
  apply V1Facts.check_valid in Hm, Hd. split; [|split; [done|]].
  - destruct Hm as (s & Hs & Hin). cbn [V1.get] in Hs. rewrite Hs.
    apply elem_of_cons in Hin as [->|Hin]; [by left|].
    apply elem_of_cons in Hin as [->|Hin]; [by right|].
    by apply elem_of_nil in Hin.
  - intros elems tag Htag this'. split.
    + apply (V1.reachable_set V1.f_matrix_type),
        (V1.reachable_set V1.f_data), Hr.
    + assert (V1.check V1.f_matrix_type (JStr tag) = None) as Hc
        by (apply V1Facts.check_valid; by exists tag).
      split.
      * apply (V1Facts.get_set_eq V1.f_matrix_type), Hc.
      * unfold this'.
        change (V1.get V1.f_data
                  (snd (V1.set V1.f_matrix_type (JStr tag)
                          (snd (V1.set V1.f_data (JArr elems) this))))
                = JArr elems).
        rewrite V1Facts.get_set_ne by done.
        by apply V1Facts.get_set_eq.
Qed.

(** From the default table: two rows stored under "dense". *)
Lemma V1_matrix_type_and_data_witness :
  V1.reachable V1Spec.empty_table /\
  V1.get_matrix_type V1Spec.empty_table = JStr "sparse" /\
  is_sequence (V1.get_data V1Spec.empty_table) /\
  let this' :=
    snd (V1.set_matrix_type (JStr "dense")
           (snd (V1.set_data (JArr [JArr [JNum (Finite 1)]; JArr [JNum (Finite 2)]])
                   V1Spec.empty_table))) in
  V1.reachable this' /\
  V1.get_matrix_type this' = JStr "dense" /\
  V1.get_data this' = JArr [JArr [JNum (Finite 1)]; JArr [JNum (Finite 2)]].
Proof.
  pose proof (V1_matrix_type_and_data V1Spec.empty_table
                V1Facts.empty_table_reachable) as (_ & Hseq & Hany).
  split; [exact V1Facts.empty_table_reachable|]. split; [reflexivity|].
  split; [exact Hseq|]. apply Hany. by apply (bool_decide_unpack _).
Defined.

(** C10 fails as stated: a configuration can supply valid values for the
    twelve common fields and a [comment] that version 1 rejects; version 2,
    which has no such field, constructs an instance. *)
Lemma constructors_disagree_on_comment :
  let o : Obj :=
    {[ "id" := JNull;
       "format" := JStr "Biological Observation Matrix 1.0.0";
       "format_url" := JStr "http://biom-format.org";
       "type" := JStr "OTU table";
       "generated_by" := JStr "QIIME";
       "date" := JStr "2016-11-02T17:54:56.789Z";
       "rows" := JArr [];
       "columns" := JArr [];
       "matrix_type" := JStr "sparse";
       "matrix_element_type" := JStr "int";
       "shape" := JArr [JNum (Finite 0); JNum (Finite 0)];
       "data" := JArr [];
       "comment" := JNum (Finite 42) ]} in
  (forall f, f <> V1.f_comment ->
     exists v, o !! V1.option_name f = Some v /\ V1Spec.valid f v) /\
  V1.constructor 0 (JObj o) = inl (TypeError "comment must be string or null") /\
  exists this, V2.constructor 0 (JObj o) = inr this.
Proof.
  intros o. split; [|split].
  - intros f Hf. destruct f; try done; eexists; (split; [reflexivity|]);
      apply V1Facts.check_valid; reflexivity.
  - reflexivity.
  - eexists. apply V2Facts.constructor_stores.
Qed.

(** C10, amended.  On a configuration that supplies a valid value for each
    of the twelve common fields, and whose [comment], if it has one, is
    [undefined] or valid, both constructors succeed and the twelve read
    accessors agree. *)
Theorem constructors_agree now o :
  (forall f, f <> V1.f_comment ->
     exists v, o !! V1.option_name f = Some v /\ V1Spec.valid f v) ->
  (forall v, o !! "comment" = Some v ->
     v = JUndefined \/ V1Spec.valid V1.f_comment v) ->
  exists this1 this2,
    V1.constructor now (JObj o) = inr this1 /\
    V2.constructor now (JObj o) = inr this2 /\
    V1.get_id this1 = V2.get_id this2 /\
    V1.get_format this1 = V2.get_format this2 /\
    V1.get_format_url this1 = V2.get_format_url this2 /\
    V1.get_type this1 = V2.get_type this2 /\
    V1.get_generated_by this1 = V2.get_generated_by this2 /\
    V1.get_date this1 = V2.get_date this2 /\
    V1.get_rows this1 = V2.get_rows this2 /\
    V1.get_columns this1 = V2.get_columns this2 /\
    V1.get_matrix_type this1 = V2.get_matrix_type this2 /\
    V1.get_matrix_element_type this1 = V2.get_matrix_element_type this2 /\
    V1.get_shape this1 = V2.get_shape this2 /\
    V1.get_data this1 = V2.get_data this2.
Proof.
  intros Hcommon Hcomment.
  assert (forall f, f <> V1.f_comment ->
            exists v, o !! V1.option_name f = Some v /\ v <> JUndefined /\
                      V1Spec.supplied o f v /\ V1.check f v = None) as Hsup.
  { intros f Hf. destruct (Hcommon f Hf) as (v & Ho & Hv). exists v.
    apply V1Facts.check_valid in Hv.
    assert (v <> JUndefined)
      by (intros ->; by apply V1Facts.check_undefined in Hv).
    do 2 (split; [done|]). split; [|done]. split; [done|]. split; [done|].
    intros -> ->. discriminate. }
  destruct (V1Facts.constructor_all_valid now o) as (this1 & Hnew1 & Hget1).
  { intros f. destruct (decide (f = V1.f_comment)) as [->|Hf].
    - destruct (V1Facts.argument_cases now o V1.f_comment)
        as [(v & Hv & ->)|[_ ->]]; [|apply V1Facts.default_valid].
      destruct Hv as (Ho & Hu & _).
      destruct (Hcomment v Ho) as [->|Hv]; [done|].
      by apply V1Facts.check_valid.
    - destruct (Hsup f Hf) as (v & _ & _ & Hs & Hc).
      by rewrite (V1Facts.argument_supplied now o f v Hs). }
  destruct (V2Facts.constructor_get now o)
    as (this2 & Hnew2 & G1 & G2 & G3 & G4 & G5 & G6 & G7 & G8 & G9 & G10
        & G11 & G12).
  exists this1, this2. split; [done|]. split; [done|].
  rewrite G1, G2, G3, G4, G5, G6, G7, G8, G9, G10, G11, G12.
  assert (forall f d, f <> V1.f_comment ->
            V1.get f this1 = prop_or o (V1.option_name f) d) as Hsame.
  { intros f d Hf. destruct (Hsup f Hf) as (v & Ho & Hu & Hs & _).
    rewrite Hget1, (V1Facts.argument_supplied now o f v Hs).
    symmetry. by apply V2Facts.prop_or_supplied. }
  repeat split.
  - by apply (Hsame V1.f_id).
  - by apply (Hsame V1.f_format).
  - by apply (Hsame V1.f_format_url).
  - by apply (Hsame V1.f_type).
  - by apply (Hsame V1.f_generated_by).
  - by apply (Hsame V1.f_date).
  - by apply (Hsame V1.f_rows).
  - by apply (Hsame V1.f_columns).
  - by apply (Hsame V1.f_matrix_type).
  - by apply (Hsame V1.f_matrix_element_type).
  - by apply (Hsame V1.f_shape).
  - by apply (Hsame V1.f_data).
Qed.

(** A configuration with the twelve common fields and no comment. *)
Lemma constructors_agree_witness :
  let o : Obj :=
    {[ "id" := JStr "table-1";
       "format" := JStr "Biological Observation Matrix 1.0.0";
       "format_url" := JStr "http://biom-format.org";
       "type" := JStr "Gene table";
       "generated_by" := JStr "QIIME";
       "date" := JStr "2016-11-02T17:54:56.789Z";
       "rows" := JArr [JObj {[ "id" := JStr "gene-a" ]}];
       "columns" := JArr [JObj {[ "id" := JStr "sample-1" ]}];
       "matrix_type" := JStr "dense";
       "matrix_element_type" := JStr "int";
       "shape" := JArr [JNum (Finite 1); JNum (Finite 1)];
       "data" := JArr [JArr [JNum (Finite 7)]] ]} in
  (forall f, f <> V1.f_comment ->
     exists v, o !! V1.option_name f = Some v /\ V1Spec.valid f v) /\
  (forall v, o !! "comment" = Some v ->
     v = JUndefined \/ V1Spec.valid V1.f_comment v) /\
  exists this1 this2,
    V1.constructor 0 (JObj o) = inr this1 /\
    V2.constructor 0 (JObj o) = inr this2 /\
    V1.get_id this1 = V2.get_id this2 /\
    V1.get_format this1 = V2.get_format this2 /\
    V1.get_format_url this1 = V2.get_format_url this2 /\
    V1.get_type this1 = V2.get_type this2 /\
    V1.get_generated_by this1 = V2.get_generated_by this2 /\
    V1.get_date this1 = V2.get_date this2 /\
    V1.get_rows this1 = V2.get_rows this2 /\
    V1.get_columns this1 = V2.get_columns this2 /\
    V1.get_matrix_type this1 = V2.get_matrix_type this2 /\
    V1.get_matrix_element_type this1 = V2.get_matrix_element_type this2 /\
    V1.get_shape this1 = V2.get_shape this2 /\
    V1.get_data this1 = V2.get_data this2.
Proof.
  intros o.
  assert (forall f, f <> V1.f_comment ->
            exists v, o !! V1.option_name f = Some v /\ V1Spec.valid f v)
    as Hcommon.
  { intros f Hf. destruct f; try done; eexists; (split; [reflexivity|]);
      apply V1Facts.check_valid; reflexivity. }
  assert (forall v, o !! "comment" = Some v ->
            v = JUndefined \/ V1Spec.valid V1.f_comment v) as Hcomment
    by (intros v Hv; discriminate).
  split; [exact Hcommon|]. split; [exact Hcomment|].
  exact (constructors_agree 0 o Hcommon Hcomment).
Defined.

(** * Further scenarios of the specification *)

(** Assigning the number 42 to [id] throws a [TypeError] and keeps the old
    id; assigning [null] is accepted. *)
Example V1_id_scenarios :
  V1.set_id (JNum (Finite 42)) V1Spec.empty_table
  = (inl (TypeError "id must be string or null"), V1Spec.empty_table) /\
  V1.set_id JNull V1Spec.empty_table
  = (inr tt, <["_id" := JNull]> V1Spec.empty_table) /\
  V1.get_id (<["_id" := JNull]> V1Spec.empty_table) = JNull.
Proof. repeat split. Qed.

(** A fraction, NaN, the infinities and a numeric string are not
    non-negative integers for [shape]; an integer held by a large double
    is. *)
Example V1_shape_scenarios :
  V1.check V1.f_shape (JArr [JNum (Finite (5 # 2)); JNum (Finite 1)])
  = Some (Error "shape does not contain non-negative integers") /\
  V1.check V1.f_shape (JArr [JNum NaN; JNum (Finite 1)])
  = Some (Error "shape does not contain non-negative integers") /\
  V1.check V1.f_shape (JArr [JNum (Infinity false); JNum (Finite 1)])
  = Some (Error "shape does not contain non-negative integers") /\
  V1.check V1.f_shape (JArr [JStr "2"; JNum (Finite 1)])
  = Some (Error "shape does not contain non-negative integers") /\
  V1.check V1.f_shape (JArr [JNum (Finite 1); JNum (Finite 2); JNum (Finite 3)])
  = Some (Error "shape does not contain exactly two elements") /\
  V1.check V1.f_shape
    (JArr [JNum (Finite 9007199254740992); JNum (Finite 0)]) = None.
Proof. repeat split. Qed.

(** * Further properties of the code *)

(** ** Helper facts *)
Module V1More.
Import V1 V1Spec V1Use V1Facts.

Lemma config_lookup val f : config val !! option_name f = Some (val f).
Proof. by destruct f. Qed.

Lemma option_name_inj f g : option_name f = option_name g -> f = g.
Proof. destruct f, g; simpl; intros H; try reflexivity; discriminate. Qed.

(** A key is the name of one of the thirteen options, or of none. *)
Lemma option_name_cases k :
  (exists f, option_name f = k) \/ (forall f, option_name f <> k).
Proof.
  destruct (decide (k ∈ option_name <$> fields)) as [Hin|Hout].
  - left. apply list_elem_of_fmap in Hin as (f & -> & _). by exists f.
  - right. intros f <-. apply Hout, list_elem_of_fmap. exists f.
    split; [done|apply elem_of_fields].
Qed.

Lemma slot_cases k : (exists f, slot f = k) \/ (forall f, slot f <> k).
Proof.
  destruct (decide (k ∈ slot <$> fields)) as [Hin|Hout].
  - left. apply list_elem_of_fmap in Hin as (f & -> & _). by exists f.
  - right. intros f <-. apply Hout, list_elem_of_fmap. exists f.
    split; [done|apply elem_of_fields].
Qed.

Lemma run_ext fs val val' this :
  (forall f, f ∈ fs -> val f = val' f) -> run fs val this = run fs val' this.
Proof.
  revert this. induction fs as [|f fs IH]; intros this Heq; [done|].
  simpl. rewrite <- (Heq f) by (by left).
  destruct (check f (val f)); [done|]. apply IH. intros g Hg. apply Heq.
  by right.
Qed.

(** The outcome of a construction is a function of what reaches the
    setters. *)
Lemma constructor_ext now now' o o' :
  (forall f, argument now o f = argument now' o' f) ->
  constructor now (JObj o) = constructor now' (JObj o').
Proof.
  intros Heq. rewrite !constructor_run. cbn [destructure].
  by rewrite (run_ext fields (argument now o) (argument now' o') ∅).
Qed.

(** The properties of a constructed instance. *)
Lemma constructor_state now o this :
  constructor now (JObj o) = inr this ->
  (forall f, this !! slot f = Some (argument now o f)) /\
  (forall k, (forall f, slot f <> k) -> this !! k = None).
Proof.
  intros Hnew. split.
  - intros f. pose proof (constructor_valid_state _ _ _ Hnew) as Hv.
    rewrite (valid_state_slot this f Hv).
    apply constructor_inv in Hnew as (o' & [= <-] & Hf).
    by destruct (Hf f) as [_ ->].
  - rewrite constructor_run in Hnew. cbn [destructure] in Hnew.
    destruct (run fields (argument now o) ∅) as [[e|[]] this'] eqn:Hrun;
      [discriminate|].
    injection Hnew as ->. apply run_ok in Hrun as [_ Hout].
    intros k Hk. rewrite Hout; [apply lookup_empty|].
    intros f _. apply Hk.
Qed.

(** Two instances with the same thirteen properties and no others are the
    same instance. *)
Lemma state_eq (this this' : Obj) :
  (forall f, this !! slot f = this' !! slot f) ->
  (forall k, (forall f, slot f <> k) -> this !! k = None) ->
  (forall k, (forall f, slot f <> k) -> this' !! k = None) ->
  this = this'.
Proof.
  intros Hf Hk Hk'. apply map_eq. intros k.
  destruct (slot_cases k) as [[f <-]|Hn]; [apply Hf|].
  by rewrite Hk, Hk'.
Qed.

(** A reachable instance has no property besides the thirteen. *)
Lemma reachable_no_other this k :
  reachable this -> (forall f, slot f <> k) -> this !! k = None.
Proof.
  intros Hr Hk. induction Hr as [now arg this Hnew|f v this _ IH].
  - destruct (destructure arg) as [e|o] eqn:Harg.
    { unfold constructor in Hnew. by rewrite Harg in Hnew. }
    rewrite (constructor_destructure now arg o Harg) in Hnew.
    by apply (constructor_state now o this Hnew).
  - rewrite set_spec. destruct (check f v); [done|]. cbn [snd].
    by rewrite lookup_insert_ne.
Qed.

Lemma argument_lookup_ext now (o o' : Obj) f :
  o !! option_name f = o' !! option_name f ->
  argument now o f = argument now o' f.
Proof.
  destruct f; cbn [argument option_name]; unfold prop_or; by intros ->.
Qed.

(** An acceptable value given in the configuration is what the setter is
    handed. *)
Lemma argument_given now (o : Obj) f v :
  o !! option_name f = Some v -> check f v = None -> argument now o f = v.
Proof.
  intros Ho Hc. apply argument_supplied. split; [done|]. split.
  - intros ->. by apply check_undefined in Hc.
  - intros -> ->. discriminate.
Qed.

Lemma prop_or_undefined (o : Obj) k k' d :
  prop_or (<[k := JUndefined]> o) k' d = prop_or (delete k o) k' d.
Proof.
  unfold prop_or. destruct (decide (k = k')) as [->|Hne].
  - by rewrite lookup_insert_eq, lookup_delete_eq.
  - by rewrite lookup_insert_ne, lookup_delete_ne.
Qed.

(** The clock reaches the setters through [date] only, and does not decide
    whether the date is accepted. *)
Lemma argument_clock now now' o f :
  f <> f_date -> argument now o f = argument now' o f.
Proof. by destruct f. Qed.

Lemma argument_clock_date now now' o :
  (~ date_unset o -> argument now o f_date = argument now' o f_date) /\
  check f_date (argument now o f_date) = check f_date (argument now' o f_date).
Proof.
  cbn [argument]. unfold date_unset, prop_or.
  destruct (o !! "date") as [[]|]; split; try done; intros H; destruct H; auto.
Qed.

Lemma run_outcome_ext fs val val' this this' :
  (forall f, f ∈ fs -> check f (val f) = check f (val' f)) ->
  fst (run fs val this) = fst (run fs val' this').
Proof.
  revert this this'. induction fs as [|f fs IH]; intros this this' Heq; [done|].
  simpl. rewrite <- (Heq f) by (by left).
  destruct (check f (val f)); [done|]. apply IH. intros g Hg. apply Heq.
  by right.
Qed.

(** What a setter throws at a value of the wrong structural type, and at
    one of the right type. *)
Lemma check_ill_typed f v :
  ~ well_typed f v -> exists m, check f v = Some (TypeError m).
Proof.
  intros Hw.
  destruct f, v; try (eexists; reflexivity); exfalso; apply Hw;
    cbn [well_typed]; unfold textual, is_sequence; eauto.
Qed.

Lemma check_well_typed f v e :
  well_typed f v -> check f v = Some e ->
  (VocabularyViolation e /\ exists cv, enum_field f cv) \/
  ((ArityViolation e \/ DomainViolation e) /\ f = f_shape).
Proof.
  intros Hw Hc.
  assert (forall cv, enum_field f cv -> textual v ->
            VocabularyViolation e /\ exists cv, enum_field f cv) as Henum.
  { intros cv Hf [s ->]. split; [|by exists cv].
    destruct (check_enum_string f cv s Hf) as [Hin Hout].
    destruct (decide (s ∈ cv)) as [Hs|Hs].
    - rewrite (Hin Hs) in Hc. discriminate.
    - destruct (Hout Hs) as (e' & He' & Hv). congruence. }
  destruct f; cbn [well_typed] in Hw.
  all: try (left; eapply Henum; [unfold enum_field; eauto|done]; fail).
  all: try (exfalso; unfold textual, is_sequence in Hw;
            decompose [ex or] Hw; subst; discriminate; fail).
  right. split; [|done]. destruct Hw as [elems ->].
  rewrite check_shape_array in Hc.
  destruct (negb (_ =? 2)); [injection Hc as <-; by left|].
  destruct (negb _); [injection Hc as <-; by right|discriminate].
Qed.

End V1More.

(** ** Version 1 *)

(** X1.  The setter of every field accepts exactly the values that are valid
    for the field: a valid value is installed in the backing property, any
    other value makes the setter throw and leaves the table as it was. *)
Theorem V1_setter_accepts_exactly_valid f v this :
  (V1Spec.valid f v ->
   V1.set f v this = (inr tt, <[V1.slot f := v]> this) /\
   V1.get f (<[V1.slot f := v]> this) = v) /\
  (~ V1Spec.valid f v -> exists e, V1.set f v this = (inl e, this)).
Proof.
  rewrite V1Facts.set_spec. split.
  - intros Hv%V1Facts.check_valid. rewrite Hv. split; [done|].
    rewrite V1Facts.get_slot. apply V1Facts.prop_insert_eq.
  - intros Hv. destruct (V1.check f v) as [e|] eqn:Hc; [by exists e|].
    by apply V1Facts.check_valid in Hc.
Qed.

(** X2.  In every reachable state each field holds a value valid for it,
    and the instance has the thirteen backing properties and no other. *)
Theorem V1_reachable_fields_valid this :
  V1.reachable this ->
  (forall f, V1Spec.valid f (V1.get f this)) /\
  (forall k, is_Some (this !! k) <-> exists f, k = V1.slot f).
Proof.
  intros Hr. pose proof (V1Facts.reachable_valid_state this Hr) as Hv. split.
  - intros f. apply V1Facts.check_valid, Hv.
  - intros k. split.
    + intros Hk. destruct (V1More.slot_cases k) as [[f <-]|Hn]; [by exists f|].
      rewrite (V1More.reachable_no_other this k Hr Hn) in Hk.
      by destruct Hk.
    + intros [f ->]. rewrite (V1Facts.valid_state_slot this f Hv). by eexists.
Qed.

(** After a rejected and an accepted assignment on the default table. *)
Lemma V1_reachable_fields_valid_witness :
  let this :=
    snd (V1.set V1.f_shape (JArr [JNum (Finite 2); JNum (Finite 3)])
           (snd (V1.set V1.f_rows JNull V1Spec.empty_table))) in
  V1.reachable this /\
  (forall f, V1Spec.valid f (V1.get f this)) /\
  (forall k, is_Some (this !! k) <-> exists f, k = V1.slot f).
Proof.
  intros this.
  assert (V1.reachable this) as Hr
    by (do 2 apply V1.reachable_set; apply V1Facts.empty_table_reachable).
  split; [exact Hr|]. exact (V1_reachable_fields_valid this Hr).
Defined.

(** X3.  The fields are constrained one by one and not against each other:
    any choice of a valid value for each field is the content of a table,
    obtained by passing the values to the constructor. *)
Theorem V1_valid_combinations_reachable now val :
  (forall f, V1Spec.valid f (val f)) ->
  exists this,
    V1.constructor now (JObj (V1Use.config val)) = inr this /\
    V1.reachable this /\
    forall f, V1.get f this = val f.
Proof.
  intros Hval.
  assert (forall f, V1.argument now (V1Use.config val) f = val f) as Harg.
  { intros f. apply V1More.argument_given; [apply V1More.config_lookup|].
    apply V1Facts.check_valid, Hval. }
  destruct (V1Facts.constructor_all_valid now (V1Use.config val))
    as (this & Hnew & Hget).
  { intros f. rewrite Harg. apply V1Facts.check_valid, Hval. }
  exists this. split; [done|]. split; [by eapply V1.reachable_new|].
  intros f. by rewrite Hget.
Qed.

(** A dense table whose shape says 5 by 7 over no rows, no columns and one
    datum. *)
Lemma V1_valid_combinations_reachable_witness :
  let val f :=
    match f with
    | V1.f_shape => JArr [JNum (Finite 5); JNum (Finite 7)]
    | V1.f_matrix_type => JStr "dense"
    | V1.f_data => JArr [JStr "x"]
    | _ => V1Spec.documented_default 0 f
    end in
  (forall f, V1Spec.valid f (val f)) /\
  exists this,
    V1.constructor 0 (JObj (V1Use.config val)) = inr this /\
    V1.reachable this /\
    forall f, V1.get f this = val f.
Proof.
  intros val.
  assert (forall f, V1Spec.valid f (val f)) as Hval
    by (intros f; apply V1Facts.check_valid; by destruct f).
  split; [exact Hval|]. exact (V1_valid_combinations_reachable 0 val Hval).
Defined.

(** X4.  Passing the fields read from a table to the constructor builds
    the same table again, whatever the clock says. *)
Theorem V1_copy_construction now this :
  V1.reachable this ->
  V1.constructor now (JObj (V1Use.config_of this)) = inr this.
Proof.
  intros Hr. pose proof (V1Facts.reachable_valid_state this Hr) as Hv.
  assert (forall f, V1.argument now (V1Use.config_of this) f = V1.get f this)
    as Harg.
  { intros f. apply V1More.argument_given; [|apply Hv].
    apply (V1More.config_lookup (fun f => V1.get f this)). }
  destruct (V1Facts.constructor_all_valid now (V1Use.config_of this))
    as (this' & Hnew & Hget).
  { intros f. rewrite Harg. apply Hv. }
  rewrite Hnew. f_equal.
  destruct (V1More.constructor_state _ _ _ Hnew) as [Hin Hout].
  apply V1More.state_eq.
  - intros f. by rewrite Hin, Harg, (V1Facts.valid_state_slot this f Hv).
  - exact Hout.
  - intros k Hk. by apply V1More.reachable_no_other.
Qed.

(** Copying the default table built in 2016 at the epoch. *)
Lemma V1_copy_construction_witness :
  V1.reachable V1Spec.empty_table /\
  V1.constructor 0 (JObj (V1Use.config_of V1Spec.empty_table))
  = inr V1Spec.empty_table.
Proof.
  split; [exact V1Facts.empty_table_reachable|].
  exact (V1_copy_construction 0 V1Spec.empty_table
           V1Facts.empty_table_reachable).
Defined.

(** The date setter takes any string, the rows setter any array. *)
Lemma V1_setter_accepts_exactly_valid_witness :
  (V1.set V1.f_date (JStr "yesterday") V1Spec.empty_table
   = (inr tt, <["_date" := JStr "yesterday"]> V1Spec.empty_table) /\
   V1.get V1.f_date (<["_date" := JStr "yesterday"]> V1Spec.empty_table)
   = JStr "yesterday") /\
  (exists e, V1.set V1.f_rows (JObj ∅) V1Spec.empty_table
             = (inl e, V1Spec.empty_table)).
Proof.
  split.
  - apply (proj1 (V1_setter_accepts_exactly_valid V1.f_date (JStr "yesterday")
                    V1Spec.empty_table)).
    by eexists.
  - apply (proj2 (V1_setter_accepts_exactly_valid V1.f_rows (JObj ∅)
                    V1Spec.empty_table)).
    intros [? ?]. discriminate.
Defined.

(** X5.  An entry of the configuration under a name that is not one of the
    thirteen options has no effect on the construction. *)
Theorem V1_unrecognised_options_ignored now o k v :
  (forall f, V1.option_name f <> k) ->
  V1.constructor now (JObj (<[k := v]> o)) = V1.constructor now (JObj o).
Proof.
  intros Hk. apply V1More.constructor_ext. intros f.
  apply V1More.argument_lookup_ext. by rewrite lookup_insert_ne.
Qed.

(** A misspelt option. *)
Lemma V1_unrecognised_options_ignored_witness :
  (forall f, V1.option_name f <> "matrixtype") /\
  V1.constructor 0 (JObj (<["matrixtype" := JNum (Finite 1)]> ∅))
  = V1.constructor 0 (JObj ∅).
Proof.
  assert (forall f, V1.option_name f <> "matrixtype") as Hk
    by (intros f; by destruct f).
  split; [exact Hk|].
  exact (V1_unrecognised_options_ignored 0 ∅ "matrixtype" (JNum (Finite 1)) Hk).
Defined.

(** X6.  An option given as [undefined] is an option not given, and a date
    given as [null] is a date not given: the construction ends the same
    way. *)
Theorem V1_undefined_is_missing now o k :
  V1.constructor now (JObj (<[k := JUndefined]> o))
  = V1.constructor now (JObj (delete k o)) /\
  V1.constructor now (JObj (<["date" := JNull]> o))
  = V1.constructor now (JObj (delete "date" o)).
Proof.
  split; apply V1More.constructor_ext; intros f.
  - destruct f; cbn [V1.argument V1.option_name];
      by rewrite V1More.prop_or_undefined.
  - destruct (decide (f = V1.f_date)) as [->|Hf].
    + cbn [V1.argument]. unfold prop_or.
      by rewrite lookup_insert_eq, lookup_delete_eq.
    + apply V1More.argument_lookup_ext.
      rewrite lookup_insert_ne, lookup_delete_ne; [done| |];
        intros Heq; apply Hf; by destruct f.
Qed.

(** X7.  The clock decides nothing but the stamped date: whether the
    construction succeeds, what it throws and every field other than [date]
    are the same at any two readings, and when the configuration gives the
    date the whole instance is. *)
Theorem V1_clock_only_dates now now' arg :
  (forall e, V1.constructor now arg = inl e -> V1.constructor now' arg = inl e) /\
  (forall this,
     V1.constructor now arg = inr this ->
     exists this',
       V1.constructor now' arg = inr this' /\
       (forall f, f <> V1.f_date -> V1.get f this' = V1.get f this) /\
       (forall o, destructure arg = inr o -> ~ V1Spec.date_unset o ->
                  this' = this)).
Proof.
  destruct (destructure arg) as [e0|o] eqn:Harg.
  { unfold V1.constructor. rewrite Harg. split; [done|discriminate]. }
  rewrite !(V1Facts.constructor_destructure _ arg o Harg).
  assert (forall f, V1.check f (V1.argument now o f)
                    = V1.check f (V1.argument now' o f)) as Hcheck.
  { intros f. destruct (decide (f = V1.f_date)) as [->|Hf].
    - apply V1More.argument_clock_date.
    - by rewrite (V1More.argument_clock now now' o f Hf). }
  pose proof (V1More.run_outcome_ext V1.fields (V1.argument now o)
                (V1.argument now' o) ∅ ∅ (fun f _ => Hcheck f)) as Hout.
  rewrite !V1Facts.constructor_run. cbn [destructure].
  destruct (V1Spec.run V1.fields (V1.argument now o) ∅)
    as [[e|[]] this] eqn:Hrun;
    destruct (V1Spec.run V1.fields (V1.argument now' o) ∅)
    as [[e'|[]] this'] eqn:Hrun'; cbn [fst] in Hout; try discriminate.
  - injection Hout as <-. split; [done|discriminate].
  - split; [discriminate|]. intros ? [= <-]. exists this'. split; [done|].
    apply V1Facts.run_ok in Hrun as [Hin Hother].
    apply V1Facts.run_ok in Hrun' as [Hin' Hother'].
    assert (forall f, V1.get f this = V1.argument now o f) as Hget
      by (intros f; apply Hin, V1Facts.elem_of_fields).
    assert (forall f, V1.get f this' = V1.argument now' o f) as Hget'
      by (intros f; apply Hin', V1Facts.elem_of_fields).
    split.
    + intros f Hf. by rewrite Hget, Hget', (V1More.argument_clock now now' o f).
    + intros o' [= <-] Hdate.
      assert (forall f, V1.get f this' = V1.get f this) as Hsame.
      { intros f. rewrite Hget, Hget'.
        destruct (decide (f = V1.f_date)) as [->|Hf].
        - symmetry. by apply V1More.argument_clock_date.
        - by rewrite (V1More.argument_clock now now' o f). }
      assert (forall f, V1.check f (V1.get f this) = None) as Hv
        by (intros f; rewrite Hget; apply Hin, V1Facts.elem_of_fields).
      assert (forall f, V1.check f (V1.get f this') = None) as Hv'
        by (intros f; rewrite Hget'; apply Hin', V1Facts.elem_of_fields).
      apply V1More.state_eq.
      * intros f.
        rewrite (V1Facts.valid_state_slot this' f Hv'),
          (V1Facts.valid_state_slot this f Hv).
        by rewrite Hsame.
      * intros k Hk. rewrite Hother'; [apply lookup_empty|]. intros f _. apply Hk.
      * intros k Hk. rewrite Hother; [apply lookup_empty|]. intros f _. apply Hk.
Qed.

(** Two constructions of a dated table, a day apart. *)
Lemma V1_clock_only_dates_witness :
  let arg := JObj {[ "date" := JStr "2016-11-02T17:54:56.789Z" ]} in
  exists this,
    V1.constructor 0 arg = inr this /\
    V1.constructor 86400000 arg = inr this.
Proof.
  intros arg.
  destruct (V1Facts.constructor_all_valid 0
              {[ "date" := JStr "2016-11-02T17:54:56.789Z" ]})
    as (this & Hnew & _); [by intros []|].
  exists this. split; [exact Hnew|].
  destruct (proj2 (V1_clock_only_dates 0 86400000 arg) this Hnew)
    as (this' & Hnew' & _ & Hsame).
  rewrite Hnew'. f_equal. apply (Hsame _ eq_refl).
  intros [H|[H|H]]; discriminate.
Defined.

(** X8.  Accepted assignments to two different fields can be made in either
    order, and of two accepted assignments to the same field the second is
    the one that counts. *)
Theorem V1_assignments_commute f g v w this :
  V1Spec.valid f v ->
  V1Spec.valid g w ->
  (f <> g ->
   (V1.set f v ;; V1.set g w) this = (V1.set g w ;; V1.set f v) this) /\
  (f = g -> (V1.set f v ;; V1.set g w) this = V1.set g w this).
Proof.
  intros Hv%V1Facts.check_valid Hw%V1Facts.check_valid.
  unfold mbind, M_bind, bind. rewrite !V1Facts.set_spec, Hv, Hw.
  rewrite !V1Facts.set_spec, Hv, Hw. split.
  - intros Hne. f_equal. apply insert_insert_ne. intros ?%V1Facts.slot_inj. done.
  - intros ->. f_equal. apply insert_insert_eq.
Qed.

(** Shape then rows, rows then shape; and two types in a row. *)
Lemma V1_assignments_commute_witness :
  let shape := JArr [JNum (Finite 1); JNum (Finite 0)] in
  let rows := JArr [JObj {[ "id" := JStr "gene-a" ]}] in
  (V1.set V1.f_shape shape ;; V1.set V1.f_rows rows) V1Spec.empty_table
  = (V1.set V1.f_rows rows ;; V1.set V1.f_shape shape) V1Spec.empty_table /\
  (V1.set V1.f_type (JStr "Gene table") ;; V1.set V1.f_type (JStr "Taxon table"))
    V1Spec.empty_table
  = V1.set V1.f_type (JStr "Taxon table") V1Spec.empty_table.
Proof.
  intros shape rows. split.
  - apply (V1_assignments_commute V1.f_shape V1.f_rows shape rows); [| |done].
    + apply V1Facts.check_valid. reflexivity.
    + by eexists.
  - apply (V1_assignments_commute V1.f_type V1.f_type); [| |done];
      apply V1Facts.check_valid; reflexivity.
Defined.

(** X9.  Giving a valid value for a field in the configuration comes to the
    same as assigning it after the construction: the instance built from
    the extended configuration is the one the setter leaves. *)
Theorem V1_option_is_assignment now o f v this :
  V1Spec.valid f v ->
  V1.constructor now (JObj o) = inr this ->
  exists this',
    V1.set f v this = (inr tt, this') /\
    V1.constructor now (JObj (<[V1.option_name f := v]> o)) = inr this'.
Proof.
  intros Hv%V1Facts.check_valid Hnew.
  exists (<[V1.slot f := v]> this). split; [by rewrite V1Facts.set_spec, Hv|].
  destruct (V1More.constructor_state now o this Hnew) as [Hin Hout].
  assert (forall g, V1.check g (V1.argument now o g) = None) as Hall.
  { intros g. apply V1Facts.constructor_inv in Hnew as (o' & [= <-] & Hg).
    apply Hg. }
  set (o' := <[V1.option_name f := v]> o).
  assert (V1.argument now o' f = v) as Hf.
  { apply V1More.argument_given; [|done]. apply lookup_insert_eq. }
  assert (forall g, g <> f -> V1.argument now o' g = V1.argument now o g) as Hg.
  { intros g Hne. apply V1More.argument_lookup_ext, lookup_insert_ne.
    intros ?%V1More.option_name_inj. done. }
  destruct (V1Facts.constructor_all_valid now o') as (this' & Hnew' & _).
  { intros g. destruct (decide (g = f)) as [->|Hne]; [by rewrite Hf|].
    rewrite Hg by done. apply Hall. }
  rewrite Hnew'. f_equal.
  destruct (V1More.constructor_state now o' this' Hnew') as [Hin' Hout'].
  apply V1More.state_eq.
  - intros g. rewrite Hin'. destruct (decide (g = f)) as [->|Hne].
    + by rewrite Hf, lookup_insert_eq.
    + rewrite Hg, lookup_insert_ne, Hin; [done| |done].
      intros ?%V1Facts.slot_inj. done.
  - exact Hout'.
  - intros k Hk. rewrite lookup_insert_ne by apply Hk. by apply Hout.
Qed.

(** Adding the type to the empty configuration. *)
Lemma V1_option_is_assignment_witness :
  V1Spec.valid V1.f_type (JStr "Gene table") /\
  exists this',
    V1.set V1.f_type (JStr "Gene table") V1Spec.empty_table = (inr tt, this') /\
    V1.constructor 1478109296789 (JObj (<["type" := JStr "Gene table"]> ∅))
    = inr this'.
Proof.
  assert (V1Spec.valid V1.f_type (JStr "Gene table")) as Hv
    by (apply V1Facts.check_valid; reflexivity).
  split; [exact Hv|].
  exact (V1_option_is_assignment 1478109296789 ∅ V1.f_type (JStr "Gene table")
           V1Spec.empty_table Hv eq_refl).
Defined.

(** X10.  A setter throws a [TypeError] exactly when the value has the wrong
    structural type for the field.  Whatever else a setter throws is the
    vocabulary error of one of the three enum fields or one of the two
    errors of [shape]. *)
Theorem V1_error_taxonomy f v :
  (~ V1Use.well_typed f v <-> exists m, V1.check f v = Some (TypeError m)) /\
  (forall e, V1.check f v = Some e ->
     TypeMismatch e \/
     (VocabularyViolation e /\ exists cv, V1Spec.enum_field f cv) \/
     ((ArityViolation e \/ DomainViolation e) /\ f = V1.f_shape)).
Proof.
  split.
  - split; [apply V1More.check_ill_typed|].
    intros [m Hm] Hw.
    destruct (V1More.check_well_typed f v _ Hw Hm)
      as [[[H|[H|H]] _]|[[H|H] _]]; discriminate.
  - intros e He.
    assert (V1Use.well_typed f v \/ ~ V1Use.well_typed f v) as [Hw|Hw].
    { destruct f, v; cbn [V1Use.well_typed]; unfold textual, is_sequence;
        first [ left; eauto; fail
              | right; intros H; decompose [ex or] H; discriminate ]. }
    + right. by apply (V1More.check_well_typed f v).
    + left. destruct (V1More.check_ill_typed f v Hw) as [m Hm].
      exists m. congruence.
Qed.

(** X11.  The message of whatever the setter of a field throws begins with
    the name of the field. *)
Theorem V1_error_message_names_field f v e :
  V1.check f v = Some e ->
  String.prefix (V1.option_name f) (message e) = true.
Proof.
  unfold V1.check.
  destruct f; cbn [V1.set]; V1Facts.unfold_setters; V1Facts.case_guards;
    cbn [fst]; intros [= <-]; reflexivity.
Qed.

(** The vocabulary error of [matrix_element_type]. *)
Lemma V1_error_message_names_field_witness :
  V1.check V1.f_matrix_element_type (JStr "double")
  = Some (Error ("matrix_element_type must be part of the controlled"
                 ++ " vocabulary: " ++ dq ++ "int" ++ dq ++ ", " ++ dq
                 ++ "float" ++ dq ++ " or " ++ dq ++ "unicode" ++ dq)) /\
  String.prefix "matrix_element_type"
    ("matrix_element_type must be part of the controlled"
     ++ " vocabulary: " ++ dq ++ "int" ++ dq ++ ", " ++ dq
     ++ "float" ++ dq ++ " or " ++ dq ++ "unicode" ++ dq) = true.
Proof.
  split; [reflexivity|].
  exact (V1_error_message_names_field V1.f_matrix_element_type (JStr "double")
           _ eq_refl).
Defined.

(** ** Version 2 *)

Module V2More.
Import V2 V2Use V2Facts.

Lemma get_constructed now o this f :
  constructor now (JObj o) = inr this -> get f this = stored now o f.
Proof.
  rewrite constructor_stores. intros [= <-].
  destruct f; cbn [get stored V1.option_name];
    unfold get_id, get_format, get_format_url, get_type, get_generated_by,
      get_date, get_rows, get_columns, get_matrix_type,
      get_matrix_element_type, get_shape, get_data, prop;
    by simplify_map_eq.
Qed.

Lemma constructor_total now o : exists this, constructor now (JObj o) = inr this.
Proof. eexists. apply constructor_stores. Qed.

Lemma stored_given now (o : Obj) f v :
  f <> V1.f_comment -> o !! V1.option_name f = Some v -> v <> JUndefined ->
  stored now o f = v.
Proof.
  intros Hf Ho Hv. destruct f; try done; cbn [stored V1.option_name] in *;
    by apply prop_or_supplied.
Qed.

Lemma stored_default now (o : Obj) f :
  f = V1.f_comment \/ o !! V1.option_name f = None \/
  o !! V1.option_name f = Some JUndefined ->
  stored now o f = default_of now f.
Proof.
  intros [->|Ho]; [done|].
  destruct f; cbn [stored V1.option_name default_of] in *; unfold prop_or;
    try reflexivity; destruct Ho as [-> | ->]; reflexivity.
Qed.

End V2More.

Module V2Inv.
Import V2 V2Use V2Facts.

Lemma prop_or_defined (o : Obj) k d : d <> JUndefined -> prop_or o k d <> JUndefined.
Proof. intros Hd. unfold prop_or. by destruct (o !! k) as [[]|]. Qed.

Lemma constructor_of_destructured now arg o :
  destructure arg = inr o -> constructor now arg = constructor now (JObj o).
Proof. intros H. unfold constructor. rewrite H. reflexivity. Qed.

Lemma constructor_twelve now o this :
  constructor now (JObj o) = inr this -> twelve this.
Proof.
  rewrite constructor_stores. intros [= <-]. split.
  - intros f Hf. destruct f; try done; cbn [V1.slot V1.option_name];
      eexists; (split; [by simplify_map_eq|]); by apply prop_or_defined.
  - intros k Hk.
    rewrite !lookup_insert_ne; [apply lookup_empty|..].
    + apply (Hk V1.f_id). done.
    + apply (Hk V1.f_format). done.
    + apply (Hk V1.f_format_url). done.
    + apply (Hk V1.f_type). done.
    + apply (Hk V1.f_generated_by). done.
    + apply (Hk V1.f_date). done.
    + apply (Hk V1.f_rows). done.
    + apply (Hk V1.f_columns). done.
    + apply (Hk V1.f_matrix_type). done.
    + apply (Hk V1.f_matrix_element_type). done.
    + apply (Hk V1.f_shape). done.
    + apply (Hk V1.f_data). done.
Qed.

Lemma set_id_twelve v this : twelve this -> twelve (snd (set_id v this)).
Proof.
  intros [Hin Hout].
  assert (snd (set_id v this) = this \/
          (snd (set_id v this) = <["_id" := v]> this /\ v <> JUndefined))
    as [-> |[-> Hv]] by (destruct v; (by left) || (by right)); [done|].
  split.
  - intros f Hf. destruct (decide (f = V1.f_id)) as [->|Hne].
    + exists v. by rewrite lookup_insert_eq.
    + rewrite lookup_insert_ne; [by apply Hin|].
      intros Heq. apply Hne. symmetry. by apply V1Facts.slot_inj.
  - intros k Hk. rewrite lookup_insert_ne; [by apply Hout|].
    by apply (Hk V1.f_id).
Qed.

Lemma reachable_twelve this : reachable this -> twelve this.
Proof.
  induction 1 as [now arg this Hnew|v this _ IH].
  - destruct (destructure arg) as [e|o] eqn:Harg.
    { unfold constructor in Hnew. by rewrite Harg in Hnew. }
    rewrite (constructor_of_destructured now arg o Harg) in Hnew.
    by eapply constructor_twelve.
  - by apply set_id_twelve.
Qed.

Lemma get_backing f this :
  f <> V1.f_comment -> get f this = prop this (V1.slot f).
Proof. intros Hf. by destruct f. Qed.

Lemma config_of_lookup this f :
  f <> V1.f_comment -> config_of this !! V1.option_name f = Some (get f this).
Proof. intros Hf. by destruct f. Qed.

Lemma config_of_comment this : config_of this !! "comment" = None.
Proof. reflexivity. Qed.

End V2Inv.

(** X12.  The version-2 constructor refuses no configuration object.  It
    stores each of the twelve options as it is given, whatever the value,
    and the default for an option that is missing or [undefined]; the
    [comment] option is not read, and [comment] reads [undefined]. *)
Theorem V2_construction_stores_anything now o :
  exists this,
    V2.constructor now (JObj o) = inr this /\
    (forall f v, f <> V1.f_comment -> o !! V1.option_name f = Some v ->
                 v <> JUndefined -> V2Use.get f this = v) /\
    (forall f, f = V1.f_comment \/ o !! V1.option_name f = None \/
               o !! V1.option_name f = Some JUndefined ->
               V2Use.get f this = V2Use.default_of now f).
Proof.
  destruct (V2More.constructor_total now o) as [this Hnew].
  exists this. split; [done|]. split.
  - intros f v Hf Ho Hv. rewrite (V2More.get_constructed now o this f Hnew).
    by apply V2More.stored_given.
  - intros f Hf. rewrite (V2More.get_constructed now o this f Hnew).
    by apply V2More.stored_default.
Qed.

(** X13.  The version-2 setter of [id] installs [null] or a string, throws a
    [TypeError] at anything else and then leaves the instance as it was; it
    never touches another field. *)
Theorem V2_set_id_contract v this :
  (v = JNull \/ textual v ->
   V2.set_id v this = (inr tt, <["_id" := v]> this) /\
   V2.get_id (<["_id" := v]> this) = v) /\
  (~ (v = JNull \/ textual v) ->
   V2.set_id v this = (inl (TypeError "id must be string or null"), this)) /\
  (forall f, f <> V1.f_id ->
     V2Use.get f (snd (V2.set_id v this)) = V2Use.get f this).
Proof.
  split; [|split].
  - intros [->|[s ->]]; (split; [reflexivity|]);
      unfold V2.get_id, prop; by rewrite lookup_insert_eq.
  - intros Hv. destruct v; try reflexivity; exfalso; apply Hv;
      unfold textual; eauto.
  - intros f Hf.
    assert (snd (V2.set_id v this) = this \/
            snd (V2.set_id v this) = <["_id" := v]> this) as [-> | ->]
      by (destruct v; (by left) || (by right)); [done|].
    destruct f; try done; cbn [V2Use.get];
      unfold V2.get_format, V2.get_format_url, V2.get_type,
        V2.get_generated_by, V2.get_date, V2.get_rows, V2.get_columns,
        V2.get_matrix_type, V2.get_matrix_element_type, V2.get_shape,
        V2.get_data, prop;
      by rewrite lookup_insert_ne.
Qed.

(** On an instance built with the id 42: [null] replaces it, 7 does not. *)
Lemma V2_set_id_contract_witness :
  let this :=
    match V2.constructor 0 (JObj {[ "id" := JNum (Finite 42) ]}) with
    | inr this => this
    | inl _ => ∅
    end in
  V2.get_id this = JNum (Finite 42) /\
  (V2.set_id JNull this = (inr tt, <["_id" := JNull]> this) /\
   V2.get_id (<["_id" := JNull]> this) = JNull) /\
  V2.set_id (JNum (Finite 7)) this
  = (inl (TypeError "id must be string or null"), this).
Proof.
  intros this. split; [reflexivity|]. split.
  - apply (proj1 (V2_set_id_contract JNull this)). by left.
  - apply (proj1 (proj2 (V2_set_id_contract (JNum (Finite 7)) this))).
    intros [?|[? ?]]; discriminate.
Defined.

(** X14.  Whatever configuration the version-1 constructor accepts, the
    version-2 constructor accepts too, and the two instances agree on every
    common field other than [date]; they agree on [date] when the
    configuration gives it, and otherwise version 1 holds the ISO string of
    the clock reading where version 2 holds the reading itself or the
    [null] it was given. *)
Theorem V1_success_implies_V2_agrees now o this1 :
  V1.constructor now (JObj o) = inr this1 ->
  exists this2,
    V2.constructor now (JObj o) = inr this2 /\
    (forall f, f <> V1.f_comment -> f <> V1.f_date ->
               V1.get f this1 = V2Use.get f this2) /\
    (~ V1Spec.date_unset o -> V1.get_date this1 = V2.get_date this2) /\
    (V1Spec.date_unset o ->
     V1.get_date this1 = JStr (Date.toISOString now) /\
     (V2.get_date this2 = V2.Date_now now \/ V2.get_date this2 = JNull)).
Proof.
  intros Hnew1.
  destruct (V2More.constructor_total now o) as [this2 Hnew2].
  exists this2. split; [done|].
  apply V1Facts.constructor_inv in Hnew1 as (o' & [= <-] & Hget1).
  assert (forall f, V1.get f this1 = V1.argument now o f) as Hg1
    by (intros f; apply Hget1).
  pose proof (fun f => V2More.get_constructed now o this2 f Hnew2) as Hg2.
  split; [|split].
  - intros f Hc Hd. rewrite Hg1, Hg2. by destruct f.
  - intros Hdate. change (V1.get V1.f_date this1 = V2Use.get V1.f_date this2).
    rewrite Hg1, Hg2. cbn [V1.argument V2Use.stored].
    unfold V1Spec.date_unset, prop_or in *.
    destruct (o !! "date") as [[]|]; try done; exfalso; apply Hdate; auto.
  - intros Hdate.
    change (V1.get V1.f_date this1 = JStr (Date.toISOString now) /\
            (V2Use.get V1.f_date this2 = V2.Date_now now \/
             V2Use.get V1.f_date this2 = JNull)).
    rewrite Hg1, Hg2. cbn [V1.argument V2Use.stored]. unfold prop_or.
    destruct Hdate as [->|[->| ->]]; auto.
Qed.

(** A typed table with the date left out. *)
Lemma V1_success_implies_V2_agrees_witness :
  let o : Obj := {[ "type" := JStr "Gene table" ]} in
  exists this1 this2,
    V1.constructor 0 (JObj o) = inr this1 /\
    V2.constructor 0 (JObj o) = inr this2 /\
    V1.get_type this1 = V2.get_type this2 /\
    V1.get_date this1 = JStr "1970-01-01T00:00:00.000Z" /\
    (V2.get_date this2 = JNum (Finite 0) \/ V2.get_date this2 = JNull).
Proof.
  intros o.
  destruct (V1Facts.constructor_all_valid 0 o) as (this1 & Hnew1 & _);
    [by intros []|].
  destruct (V1_success_implies_V2_agrees 0 o this1 Hnew1)
    as (this2 & Hnew2 & Hsame & _ & Hdate).
  exists this1, this2. split; [exact Hnew1|]. split; [exact Hnew2|].
  split; [by apply (Hsame V1.f_type)|].
  apply Hdate. by left.
Defined.

(** X15.  The version-2 constructor reads the twelve options and nothing
    else: an entry under any other name, [comment] included, changes
    nothing. *)
Theorem V2_unrecognised_options_ignored now o k v :
  (forall f, f <> V1.f_comment -> V1.option_name f <> k) ->
  V2.constructor now (JObj (<[k := v]> o)) = V2.constructor now (JObj o).
Proof.
  intros Hk.
  assert (forall f, f <> V1.f_comment -> k <> V1.option_name f) as Hk'
    by (intros f Hf ->; by apply (Hk f)).
  rewrite !V2Facts.constructor_stores. unfold prop_or.
  rewrite (lookup_insert_ne o k "id") by (by apply (Hk' V1.f_id)).
  rewrite (lookup_insert_ne o k "format") by (by apply (Hk' V1.f_format)).
  rewrite (lookup_insert_ne o k "format_url")
    by (by apply (Hk' V1.f_format_url)).
  rewrite (lookup_insert_ne o k "type") by (by apply (Hk' V1.f_type)).
  rewrite (lookup_insert_ne o k "generated_by")
    by (by apply (Hk' V1.f_generated_by)).
  rewrite (lookup_insert_ne o k "date") by (by apply (Hk' V1.f_date)).
  rewrite (lookup_insert_ne o k "rows") by (by apply (Hk' V1.f_rows)).
  rewrite (lookup_insert_ne o k "columns") by (by apply (Hk' V1.f_columns)).
  rewrite (lookup_insert_ne o k "matrix_type")
    by (by apply (Hk' V1.f_matrix_type)).
  rewrite (lookup_insert_ne o k "matrix_element_type")
    by (by apply (Hk' V1.f_matrix_element_type)).
  rewrite (lookup_insert_ne o k "shape") by (by apply (Hk' V1.f_shape)).
  rewrite (lookup_insert_ne o k "data") by (by apply (Hk' V1.f_data)).
  reflexivity.
Qed.

(** A comment in the configuration of version 2. *)
Lemma V2_unrecognised_options_ignored_witness :
  (forall f, f <> V1.f_comment -> V1.option_name f <> "comment") /\
  V2.constructor 0 (JObj (<["comment" := JNum (Finite 42)]> ∅))
  = V2.constructor 0 (JObj ∅).
Proof.
  assert (forall f, f <> V1.f_comment -> V1.option_name f <> "comment") as Hk
    by (intros f Hf; by destruct f).
  split; [exact Hk|].
  exact (V2_unrecognised_options_ignored 0 ∅ "comment" (JNum (Finite 42)) Hk).
Defined.

(** X16.  A version-2 instance has its twelve backing properties and no
    other, and none of them is [undefined]; passing the fields read from it
    to the constructor builds the same instance again, whatever the clock
    says. *)
Theorem V2_copy_construction now this :
  V2.reachable this ->
  (forall k, is_Some (this !! k) <->
             exists f, f <> V1.f_comment /\ k = V1.slot f) /\
  (forall f, f <> V1.f_comment -> V2Use.get f this <> JUndefined) /\
  V2.constructor now (JObj (V2Use.config_of this)) = inr this.
Proof.
  intros [Hin Hout]%V2Inv.reachable_twelve.
  assert (forall f, f <> V1.f_comment ->
            this !! V1.slot f = Some (V2Use.get f this) /\
            V2Use.get f this <> JUndefined) as Hget.
  { intros f Hf. destruct (Hin f Hf) as (v & Hv & Hu).
    rewrite (V2Inv.get_backing f this Hf). unfold prop. by rewrite Hv. }
  split; [|split].
  - intros k. split.
    + intros Hk. destruct (V1More.slot_cases k) as [[f <-]|Hn].
      * destruct (decide (f = V1.f_comment)) as [->|Hf]; [|by exists f].
        rewrite Hout in Hk; [by destruct Hk|].
        intros g Hg ?%V1Facts.slot_inj. done.
      * rewrite Hout in Hk; [by destruct Hk|]. intros g _. apply Hn.
    + intros (f & Hf & ->). destruct (Hget f Hf) as [-> _]. by eexists.
  - intros f Hf. by apply Hget.
  - destruct (V2More.constructor_total now (V2Use.config_of this))
      as [this' Hnew].
    rewrite Hnew. f_equal.
    destruct (V2Inv.constructor_twelve _ _ _ Hnew) as [Hin' Hout'].
    assert (forall f, f <> V1.f_comment ->
              this' !! V1.slot f = Some (V2Use.get f this)) as Hget'.
    { intros f Hf. destruct (Hin' f Hf) as (v & Hv & _). rewrite Hv. f_equal.
      transitivity (V2Use.get f this').
      - rewrite (V2Inv.get_backing f this' Hf). unfold prop. by rewrite Hv.
      - rewrite (V2More.get_constructed _ _ _ f Hnew).
        apply V2More.stored_given; [done| |by apply Hget].
        by apply V2Inv.config_of_lookup. }
    apply V1More.state_eq.
    + intros f. destruct (decide (f = V1.f_comment)) as [->|Hf].
      * rewrite Hout, Hout'; [done| |]; intros g Hg ?%V1Facts.slot_inj; done.
      * rewrite (Hget' f Hf). by destruct (Hget f Hf) as [-> _].
    + intros k Hk. apply Hout'. intros f _. apply Hk.
    + intros k Hk. apply Hout. intros f _. apply Hk.
Qed.

(** Copying an instance that holds an invalid id and a numeric date. *)
Lemma V2_copy_construction_witness :
  let this :=
    match V2.constructor 7 (JObj {[ "id" := JNum (Finite 42) ]}) with
    | inr this => this
    | inl _ => ∅
    end in
  V2.reachable this /\
  V2.constructor 99 (JObj (V2Use.config_of this)) = inr this.
Proof.
  intros this.
  assert (V2.reachable this) as Hr
    by (apply (V2.reachable_new 7 (JObj {[ "id" := JNum (Finite 42) ]}));
        reflexivity).
  split; [exact Hr|].
  exact (proj2 (proj2 (V2_copy_construction 99 this Hr))).
Defined.

(** A configuration with a boolean for [rows] and no [data]. *)
Lemma V2_construction_stores_anything_witness :
  let o : Obj := {[ "rows" := JBool true ]} in
  exists this,
    V2.constructor 5 (JObj o) = inr this /\
    V2Use.get V1.f_rows this = JBool true /\
    V2Use.get V1.f_data this = JArr [] /\
    V2Use.get V1.f_date this = JNum (Finite 5) /\
    V2Use.get V1.f_comment this = JUndefined.
Proof.
  intros o.
  destruct (V2_construction_stores_anything 5 o) as (this & Hnew & Hgiven & Hdef).
  exists this. split; [exact Hnew|]. split.
  - by apply Hgiven.
  - split; [|split]; [apply (Hdef V1.f_data)|apply (Hdef V1.f_date)
                     |apply (Hdef V1.f_comment)]; auto.
Defined.

(** A number for [type], a misspelt vocabulary word, and a one-element
    shape. *)
Lemma V1_error_taxonomy_witness :
  (exists m, V1.check V1.f_type (JNum (Finite 1)) = Some (TypeError m)) /\
  (VocabularyViolation
     (Error "type must be part of the controlled vocabulary") /\
   exists cv, V1Spec.enum_field V1.f_type cv) /\
  (ArityViolation (Error "shape does not contain exactly two elements") \/
   DomainViolation (Error "shape does not contain exactly two elements")).
Proof.
  split; [|split].
  - apply (proj1 (V1_error_taxonomy V1.f_type (JNum (Finite 1)))).
    intros [? ?]. discriminate.
  - destruct (proj2 (V1_error_taxonomy V1.f_type (JStr "otu table")) _ eq_refl)
      as [[m Hm]|[H|[_ H]]]; [discriminate|exact H|discriminate].
  - destruct (proj2 (V1_error_taxonomy V1.f_shape (JArr [JNum (Finite 1)]))
                _ eq_refl)
      as [[m Hm]|[[[H|[H|H]] _]|[H _]]]; try discriminate. exact H.
Defined.
